(** * VirusTotal lookup engine (msticpy/context/vtlookupv3/vtlookup.py)

    A shallow embedding of the [VTLookup] class: the type registry, the
    duplicate check, the batch builder of [_lookup_ioc_type], the response
    correlator [_parse_vt_results] / [_parse_single_result] and the
    single-observable entry point [lookup_ioc], followed by the properties
    of the batching, deduplication and correlation engine.

    Python values are embedded as the inductive [value]; the pandas results
    frame is a list of [ResultRow] records; the instance attributes that the
    methods mutate are threaded through a state-and-exception monad.  The
    two frame methods whose outcome depends on the pandas at hand,
    [DataFrame.append] and [DataFrame.query], are modelled per pandas
    version, and an [httpx] response by what [_vt_submit_request] reads of
    it. *)

From Stdlib Require Import ZArith String Ascii List DecimalString Lia.
From stdpp Require Import base option list gmap strings.

Set Warnings "-register-all".
Local Open Scope string_scope.
Local Open Scope Z_scope.
Local Open Scope list_scope.

(** ** Python values *)

(** JSON-shaped Python objects.  Numbers are integers (the counters of the
    service); a [dict] is an association list in which the first binding of
    a key is the one that counts. *)
Inductive value : Type :=
  | VNone
  | VBool (b : bool)
  | VInt (z : Z)
  | VStr (s : string)
  | VList (l : list value)
  | VDict (d : list (string * value)).

Inductive exn : Type :=
  | KeyError (msg : string)
  | IndexError
  | TypeError
  | AttributeError
  | SyntaxError (msg : string)
  | LookupError (msg : string)
  | InvalidIndexError
  | JSONDecodeError.

Inductive outcome (A : Type) : Type :=
  | Ok (a : A)
  | Raise (e : exn).
Arguments Ok {A} a.
Arguments Raise {A} e.

Definition obind {A B} (x : outcome A) (f : A -> outcome B) : outcome B :=
  match x with
  | Ok a => f a
  | Raise e => Raise e
  end.

Notation "'ok' x <- c1 ; c2" := (obind c1 (fun x => c2))
  (at level 20, x name, c1 at level 100, c2 at level 200, only parsing).

Definition dquote : string := String "034"%char EmptyString.
Definition newline : string := String "010"%char EmptyString.

Definition str_in (s : string) (l : list string) : bool :=
  existsb (String.eqb s) l.

(** [d.get(key, None)] and [key in d] on an association list. *)
Fixpoint dict_get (key : string) (d : list (string * value)) : option value :=
  match d with
  | [] => None
  | (k, v) :: d' => if String.eqb key k then Some v else dict_get key d'
  end.

Definition dict_set (key : string) (v : value) (d : list (string * value))
  : list (string * value) := (key, v) :: d.

Fixpoint dict_keys (d : list (string * value)) : list string :=
  match d with
  | [] => []
  | (k, _) :: d' => k :: filter (fun k' => negb (String.eqb k' k)) (dict_keys d')
  end.

Fixpoint is_substring (k s : string) : bool :=
  String.prefix k s ||
  match s with
  | EmptyString => false
  | String _ s' => is_substring k s'
  end.

Fixpoint chars (s : string) : list string :=
  match s with
  | EmptyString => []
  | String c s' => String c EmptyString :: chars s'
  end.

(** [key in v] for a string [key]. *)
Definition py_contains (key : string) (v : value) : outcome bool :=
  match v with
  | VDict d => Ok (match dict_get key d with Some _ => true | None => false end)
  | VStr s => Ok (is_substring key s)
  | VList l =>
      Ok (existsb (fun x => match x with VStr s => String.eqb s key | _ => false end) l)
  | _ => Raise TypeError
  end.

(** [v[key]] for a string [key]. *)
Definition py_getitem (v : value) (key : string) : outcome value :=
  match v with
  | VDict d =>
      match dict_get key d with
      | Some x => Ok x
      | None => Raise (KeyError key)
      end
  | _ => Raise TypeError
  end.

(** [v.get(key, None)]: only a dict has the method. *)
Definition py_get (v : value) (key : string) : outcome value :=
  match v with
  | VDict d => Ok (default VNone (dict_get key d))
  | _ => Raise AttributeError
  end.

(** [for item in v]. *)
Definition py_iter (v : value) : outcome (list value) :=
  match v with
  | VList l => Ok l
  | VDict d => Ok (map VStr (dict_keys d))
  | VStr s => Ok (map VStr (chars s))
  | _ => Raise TypeError
  end.

(** [sep.join(items)]: every item has to be a [str]. *)
Fixpoint as_strs (items : list value) : outcome (list string) :=
  match items with
  | [] => Ok []
  | VStr s :: rest => ok ss <- as_strs rest; Ok (s :: ss)
  | _ :: _ => Raise TypeError
  end.

Definition py_join (sep : string) (items : list value) : outcome value :=
  ok ss <- as_strs items; Ok (VStr (String.concat sep ss)).

(** [sum(items)], starting from the integer 0. *)
Fixpoint py_sum_from (acc : Z) (items : list value) : outcome Z :=
  match items with
  | [] => Ok acc
  | VInt z :: rest => py_sum_from (acc + z) rest
  | VBool b :: rest => py_sum_from (acc + (if b then 1 else 0)) rest
  | _ :: _ => Raise TypeError
  end.

Definition py_sum (items : list value) : outcome value :=
  ok z <- py_sum_from 0 items; Ok (VInt z).

(** [[item[key] for item in items if key in item]] *)
Fixpoint pluck (key : string) (items : list value) : outcome (list value) :=
  match items with
  | [] => Ok []
  | item :: rest =>
      ok has <- py_contains key item;
      if has then
        ok x <- py_getitem item key;
        ok xs <- pluck key rest;
        Ok (x :: xs)
      else pluck key rest
  end.

(** [s.split(sep)] for a non-empty separator. *)
Fixpoint split_go (sep : string) (skip : nat) (cur : string) (s : string)
  : list string :=
  match s with
  | EmptyString => [cur]
  | String c s' =>
      match skip with
      | S k => split_go sep k cur s'
      | O =>
          if String.prefix sep s
          then cur :: split_go sep (Nat.pred (String.length sep)) EmptyString s'
          else split_go sep O (cur +:+ String c EmptyString) s'
      end
  end.

Definition py_split (s sep : string) : list string := split_go sep O EmptyString s.

Definition str_int (z : Z) : string := NilZero.string_of_int (Z.to_int z).

(** [str(v)] as used by the f-strings; the [repr] of a container is left
    to the interpreter. *)
Definition py_str (py_repr : value -> string) (v : value) : string :=
  match v with
  | VNone => "None"
  | VBool true => "True"
  | VBool false => "False"
  | VInt z => str_int z
  | VStr s => s
  | _ => py_repr v
  end.

(** ** Data model *)

(** [VTParams]: VirusTotal parameter collection. *)
Record VTParams : Type := mkVTParams {
  api_type : string;
  batch_size : Z;
  batch_delimiter : string;
  http_verb : string;
  api_var_name : string;
  headers : option (list (string * string))
}.

(** [DuplicateStatus]: information about vt objects being duplicates. *)
Record DuplicateStatus : Type := mkDuplicateStatus {
  is_dup : bool;
  dup_status : string
}.

(** [SanitizedObservable] of [lookup_result]: the encoded observable and
    the status of the pre-processing. *)
Record SanitizedObservable : Type := mkSanitizedObservable {
  observable : option string;
  status : option string
}.

(** One row of the [results] frame, a cell per name of [_RESULT_COLUMNS]
    (the list names [Resource] twice; a row holds one such cell).  An empty
    cell (NaN or None) is [VNone]. *)
Record ResultRow : Type := mkResultRow {
  Observable : value;
  IoCType : value;
  Status : value;
  ResponseCode : value;
  RawResponse : value;
  Resource : value;
  SourceIndex : value;
  VerboseMsg : value;
  ScanId : value;
  Permalink : value;
  Positives : value;
  MD5 : value;
  SHA1 : value;
  SHA256 : value;
  ResolvedDomains : value;
  ResolvedIPs : value;
  DetectedUrls : value
}.

Definition set_Observable (v : value) (r : ResultRow) : ResultRow :=
  mkResultRow v (IoCType r) (Status r) (ResponseCode r) (RawResponse r)
    (Resource r) (SourceIndex r) (VerboseMsg r) (ScanId r) (Permalink r)
    (Positives r) (MD5 r) (SHA1 r) (SHA256 r) (ResolvedDomains r)
    (ResolvedIPs r) (DetectedUrls r).

Definition set_IoCType (v : value) (r : ResultRow) : ResultRow :=
  mkResultRow (Observable r) v (Status r) (ResponseCode r) (RawResponse r)
    (Resource r) (SourceIndex r) (VerboseMsg r) (ScanId r) (Permalink r)
    (Positives r) (MD5 r) (SHA1 r) (SHA256 r) (ResolvedDomains r)
    (ResolvedIPs r) (DetectedUrls r).

Definition set_Status (v : value) (r : ResultRow) : ResultRow :=
  mkResultRow (Observable r) (IoCType r) v (ResponseCode r) (RawResponse r)
    (Resource r) (SourceIndex r) (VerboseMsg r) (ScanId r) (Permalink r)
    (Positives r) (MD5 r) (SHA1 r) (SHA256 r) (ResolvedDomains r)
    (ResolvedIPs r) (DetectedUrls r).

Definition set_RawResponse (v : value) (r : ResultRow) : ResultRow :=
  mkResultRow (Observable r) (IoCType r) (Status r) (ResponseCode r) v
    (Resource r) (SourceIndex r) (VerboseMsg r) (ScanId r) (Permalink r)
    (Positives r) (MD5 r) (SHA1 r) (SHA256 r) (ResolvedDomains r)
    (ResolvedIPs r) (DetectedUrls r).

Definition set_SourceIndex (v : value) (r : ResultRow) : ResultRow :=
  mkResultRow (Observable r) (IoCType r) (Status r) (ResponseCode r)
    (RawResponse r) (Resource r) v (VerboseMsg r) (ScanId r) (Permalink r)
    (Positives r) (MD5 r) (SHA1 r) (SHA256 r) (ResolvedDomains r)
    (ResolvedIPs r) (DetectedUrls r).

(** [pd.DataFrame(data=d, columns=_RESULT_COLUMNS, index=[0])]: the one row
    whose cells are the entries of [d], empty where [d] has none. *)
Definition frame_row (d : list (string * value)) : ResultRow :=
  let cell c := default VNone (dict_get c d) in
  mkResultRow (cell "Observable") (cell "IoCType") (cell "Status")
    (cell "ResponseCode") (cell "RawResponse") (cell "Resource")
    (cell "SourceIndex") (cell "VerboseMsg") (cell "ScanId")
    (cell "Permalink") (cell "Positives") (cell "MD5") (cell "SHA1")
    (cell "SHA256") (cell "ResolvedDomains") (cell "ResolvedIPs")
    (cell "DetectedUrls").

(** A row of the caller's frame as [iterrows] yields it: the index label,
    the cell of the observable column and the cell of the source-index
    column (read only when that column exists). *)
Record InputRow : Type := mkInputRow {
  row_label : value;
  row_observable : option string;
  row_source_index : value
}.

(** The attributes of a [VTLookup] instance that the methods read and
    write: [_verbosity], the [results] frame, the messages handed to the
    logger, and the requests sent so far. *)
Record VTLookup : Type := mkVTLookup {
  verbosity : Z;
  results : list ResultRow;
  log : list string;
  requests : list (string * VTParams)
}.

Definition set_results (rs : list ResultRow) (st : VTLookup) : VTLookup :=
  mkVTLookup (verbosity st) rs (log st) (requests st).

(** ** Type registry *)

Definition _SUPPORTED_INPUT_TYPES : list string :=
  ["ipv4"; "dns"; "url"; "md5_hash"; "sha1_hash"; "sh256_hash"].

Definition _VT_TYPE_MAP : list (string * string) :=
  [("ipv4", "ip-address"); ("dns", "domain"); ("url", "url");
   ("md5_hash", "file"); ("sha1_hash", "file"); ("sh256_hash", "file")].

Definition _HDR_GZIP : list (string * string) :=
  [("Accept-Encoding", "gzip, deflate")].

Definition _VT_API_TYPES : list (string * VTParams) :=
  [("url", mkVTParams "url" 1 newline "get" "resource" (Some _HDR_GZIP));
   ("file", mkVTParams "file" 25 "," "get" "resource" (Some _HDR_GZIP));
   ("ip-address", mkVTParams "ip-address" 1 "" "get" "ip" None);
   ("domain", mkVTParams "domain" 1 "" "get" "domain" None)].

Fixpoint assoc {A} (key : string) (d : list (string * A)) : option A :=
  match d with
  | [] => None
  | (k, v) :: d' => if String.eqb key k then Some v else assoc key d'
  end.

(** [_VT_API_TYPES[_VT_TYPE_MAP[ioc_type]]] *)
Definition type_params (ioc_type : string) : option VTParams :=
  match assoc ioc_type _VT_TYPE_MAP with
  | Some vt_type => assoc vt_type _VT_API_TYPES
  | None => None
  end.

Definition _VT_API_prefix : string := "https://www.virustotal.com/vtapi/v2/".
Definition _VT_API_suffix : string := "/report".

(** [_get_vt_api_url]: [_VT_API.format(type=api_type)] for a known type. *)
Definition _get_vt_api_url (api_type : string) : outcome string :=
  match assoc api_type _VT_API_TYPES with
  | Some _ => Ok (_VT_API_prefix +:+ api_type +:+ _VT_API_suffix)
  | None => Raise (LookupError ("Unknown api type '" +:+ api_type +:+ "'"))
  end.

(** ** The libraries under the class *)

(** The pandas under the instance, by the behaviour of the two frame
    methods whose outcome depends on it.  [DataFrame.append] is gone from
    2.0 on; before that it cannot align the new row with the columns of
    the results frame, because [_RESULT_COLUMNS] names [Resource] twice.
    [DataFrame.query] evaluates on such a frame before 2.2 and refuses it
    from 2.2 on. *)
Inductive pandas_version : Type :=
  | Before_2_0
  | From_2_0
  | From_2_2.

(** What [self.results.append(row, ignore_index=True)] raises. *)
Definition append_error (v : pandas_version) : exn :=
  match v with
  | Before_2_0 => InvalidIndexError
  | From_2_0 | From_2_2 => AttributeError
  end.

(** What [self.results.query(...)] raises, if it does. *)
Definition query_error (v : pandas_version) : option exn :=
  match v with
  | Before_2_0 | From_2_0 => None
  | From_2_2 => Some TypeError
  end.

(** An [httpx.Response] as [_vt_submit_request] reads it: the status code,
    what [response.json()] gives ([None] when it raises [JSONDecodeError])
    and the truth value of the object. *)
Record Response : Type := mkResponse {
  response_status_code : Z;
  response_json : option value;
  response_truth : bool
}.

(** [response.is_success]: a 2xx status code. *)
Definition is_success (r : Response) : bool :=
  (200 <=? response_status_code r) && (response_status_code r <=? 299).

(** ** The state-and-exception monad of the methods *)

Definition M (A : Type) : Type := VTLookup -> outcome A * VTLookup.

Definition ret {A} (a : A) : M A := fun st => (Ok a, st).

Definition raise {A} (e : exn) : M A := fun st => (Raise e, st).

Definition bind {A B} (m : M A) (f : A -> M B) : M B :=
  fun st =>
    match m st with
    | (Ok a, st') => f a st'
    | (Raise e, st') => (Raise e, st')
    end.

Definition lift {A} (o : outcome A) : M A := fun st => (o, st).

Notation "'do' x <- c1 ; c2" := (bind c1 (fun x => c2))
  (at level 20, x name, c1 at level 100, c2 at level 200, only parsing).

(** [self.results = pd.concat([self.results, rows], ignore_index=True)] *)
Definition append_results (rows : list ResultRow) : M unit :=
  fun st => (Ok tt, set_results (results st ++ rows) st).

(** [_print_status]: the message goes to the logger when its level is
    within the instance's verbosity. *)
Definition _print_status (message : string) (verbosity_level : Z) : M unit :=
  fun st =>
    if verbosity_level <=? verbosity st
    then (Ok tt, mkVTLookup (verbosity st) (results st) (log st ++ [message])
                   (requests st))
    else (Ok tt, st).

(** ** The methods of [VTLookup] *)

Section Engine.

(** The pandas that the instance runs on. *)
Variable pandas : pandas_version.
(** [json.loads(s, strict=False)]: [None] when it raises [JSONDecodeError]. *)
Variable json_loads : string -> option value.
(** [json.dumps] *)
Variable json_dumps : value -> string.
(** [repr] of a list or dict *)
Variable py_repr : value -> string.
(** [preprocess_observable(observable, ioc_type)] of the pre-processing
    module. *)
Variable preprocess_observable : string -> string -> SanitizedObservable.
(** The response of [httpx] to the request sent after [n] earlier ones. *)
Variable http_exchange : nat -> string -> VTParams -> Response.

Definition fmt (v : value) : string := py_str py_repr v.

(** The end of [_vt_submit_request]: the body of a 2xx response is decoded
    without a guard; that of another response under one. *)
Definition service_answer (response : Response) : outcome (value * Z) :=
  if is_success response then
    match response_json response with
    | Some body => Ok (body, response_status_code response)
    | None => Raise JSONDecodeError
    end
  else if response_truth response then
    match response_json response with
    | Some body => Ok (body, response_status_code response)
    | None => Ok (VNone, response_status_code response)
    end
  else Ok (VNone, response_status_code response).

(** [_vt_submit_request]: the URL of the type, one request, and the pair
    made of its response. *)
Definition _vt_submit_request (submission_string : string) (vt_param : VTParams)
  : M (value * Z) :=
  fun st =>
    match _get_vt_api_url (api_type vt_param) with
    | Raise e => (Raise e, st)
    | Ok _ =>
        (service_answer
           (http_exchange (length (requests st)) submission_string vt_param),
         mkVTLookup (verbosity st) (results st) (log st)
           (requests st ++ [(submission_string, vt_param)]))
    end.

(** The row that [_add_invalid_input_result] builds: four cells set. *)
Definition invalid_row (obs : value) (ioc_type status : string) (source_idx : value)
  : ResultRow :=
  frame_row
    (dict_set "SourceIndex" source_idx
      (dict_set "Status" (VStr status)
        (dict_set "IoCType" (VStr ioc_type)
          (dict_set "Observable" obs [])))).

(** [self.results.append(row, ignore_index=True)] on the results frame:
    no pandas carries it out. *)
Definition frame_append (row : ResultRow) : M (list ResultRow) :=
  raise (append_error pandas).

(** [_add_invalid_input_result]: the assignment to [self.results] comes
    after the call of [append]. *)
Definition _add_invalid_input_result (obs : value) (ioc_type status : string)
    (source_idx : value) : M unit :=
  do new_results <- frame_append (invalid_row obs ioc_type status source_idx);
  fun st => (Ok tt, set_results new_results st).

(** [column == observable] on one cell. *)
Definition cell_is (c : value) (s : string) : bool :=
  match c with
  | VStr s' => String.eqb s' s
  | _ => false
  end.

Definition hash_types : list string := ["md5_hash"; "sha1_hash"; "sh256_hash"].

(** [self.results.query("MD5 == @observable or SHA1 == @observable or
    SHA256 == @observable")] *)
Definition frame_query (rs : list ResultRow) (obs : string)
  : outcome (list ResultRow) :=
  match query_error pandas with
  | Some e => Raise e
  | None =>
      Ok (filter (fun r => cell_is (MD5 r) obs || cell_is (SHA1 r) obs
                           || cell_is (SHA256 r) obs) rs)
  end.

(** The frame [duplicate] of [_check_duplicate_submission] before its
    [SourceIndex] and [Status] are overwritten. *)
Definition find_duplicates (rs : list ResultRow) (obs ioc_type : string)
  : outcome (list ResultRow) :=
  let duplicate := filter (fun r => cell_is (Observable r) obs) rs in
  if (length duplicate =? 0)%nat && str_in ioc_type hash_types then
    ok duplicate <- frame_query rs obs;
    if (0 <? length duplicate)%nat
    then Ok (map (set_Observable (VStr obs)) duplicate)
    else Ok duplicate
  else Ok duplicate.

(** [_check_duplicate_submission]; [self.results] is a frame from
    [__init__] on, so the guard for [None] never fires. *)
Definition _check_duplicate_submission (obs ioc_type : string) (source_index : value)
  : M DuplicateStatus :=
  fun st =>
    match find_duplicates (results st) obs ioc_type with
    | Raise e => (Raise e, st)
    | Ok duplicate =>
        if (0 <? length duplicate)%nat then
          let original_indices := map SourceIndex duplicate in
          let duplicate :=
            map (fun r => set_Status (VStr "Duplicate")
                            (set_SourceIndex source_index r))
                duplicate in
          (Ok (mkDuplicateStatus true
                 ("Duplicates of " +:+ fmt (VList original_indices))),
           set_results (results st ++ duplicate) st)
        else (Ok (mkDuplicateStatus false "ok"), st)
    end.

Definition fmt_opt (o : option string) : string :=
  match o with
  | Some s => s
  | None => "None"
  end.

(** [_validate_observable] *)
Definition _validate_observable (obs : option string) (ioc_type : string)
    (idx : value) : M SanitizedObservable :=
  match obs with
  | None =>
      let status := "Failed: Empty or missing observable value" in
      do _ <- _add_invalid_input_result VNone ioc_type status idx;
      do _ <- _print_status (status +:+ " (Source index " +:+ fmt idx +:+ ")") 1;
      ret (mkSanitizedObservable None (Some status))
  | Some o =>
      let pp_observable := preprocess_observable o ioc_type in
      match observable pp_observable with
      | None =>
          let st_text :=
            match status pp_observable with
            | Some s => if String.eqb s "" then "Unknown status from preprocess_observable" else s
            | None => "Unknown status from preprocess_observable"
            end in
          do _ <- _add_invalid_input_result (VStr o) ioc_type st_text idx;
          do _ <- _print_status
                    ("Invalid observable format: " +:+ dquote +:+ o +:+ dquote
                     +:+ ", type " +:+ dquote +:+ ioc_type +:+ dquote
                     +:+ ", status: " +:+ fmt_opt (status pp_observable)
                     +:+ " - skipping. (Source index " +:+ fmt idx +:+ ")") 2;
          ret pp_observable
      | Some _ =>
          do dup_result <- _check_duplicate_submission o ioc_type idx;
          if is_dup dup_result then
            do _ <- _print_status
                      ("Duplicate observable value detected: " +:+ dquote +:+ o
                       +:+ dquote +:+ ", type " +:+ dquote +:+ ioc_type +:+ dquote
                       +:+ " status: " +:+ dup_status dup_result
                       +:+ " - skipping. (Source index " +:+ fmt idx +:+ ")") 2;
            ret (mkSanitizedObservable None (Some (dup_status dup_result)))
          else ret pp_observable
      end
  end.

(** [_parse_single_result]: the cells read from one response element. *)
Definition _parse_single_result (results_dict : value) (ioc_type : string)
  : outcome ResultRow :=
  let d := [] in
  ok d <-
    (if str_in ioc_type ["url"; "md5_hash"; "sha1_hash"; "sha256_hash"] then
       ok v <- py_get results_dict "response_code";
       let d := dict_set "ResponseCode" v d in
       ok v <- py_get results_dict "verbose_msg";
       let d := dict_set "VerboseMsg" v d in
       ok v <- py_get results_dict "scan_id";
       let d := dict_set "ScanId" v d in
       ok v <- py_get results_dict "resource";
       let d := dict_set "Resource" v d in
       ok v <- py_get results_dict "permalink";
       let d := dict_set "Permalink" v d in
       ok v <- py_get results_dict "positives";
       let d := dict_set "Positives" v d in
       if str_in ioc_type ["md5_hash"; "sha1_hash"; "sha256_hash"] then
         ok v <- py_get results_dict "md5";
         let d := dict_set "MD5" v d in
         ok v <- py_get results_dict "sha1";
         let d := dict_set "SHA1" v d in
         ok v <- py_get results_dict "sha256";
         Ok (dict_set "SHA256" v d)
       else Ok d
     else Ok d);
  ok d <-
    (if str_in ioc_type ["ipv4"; "dns"] then
       ok v <- py_get results_dict "response_code";
       let d := dict_set "ResponseCode" v d in
       ok v <- py_get results_dict "verbose_msg";
       let d := dict_set "VerboseMsg" v d in
       ok has_res <- py_contains "resolutions" results_dict;
       ok d <-
         (if String.eqb ioc_type "ipv4" && has_res then
            ok res <- py_getitem results_dict "resolutions";
            ok items <- py_iter res;
            ok item_list <- pluck "hostname" items;
            ok v <- py_join ", " item_list;
            Ok (dict_set "ResolvedDomains" v d)
          else if String.eqb ioc_type "dns" && has_res then
            ok res <- py_getitem results_dict "resolutions";
            ok items <- py_iter res;
            ok item_list <- pluck "ip_address" items;
            ok v <- py_join ", " item_list;
            Ok (dict_set "ResolvedIPs" v d)
          else Ok d);
       ok has_urls <- py_contains "detected_urls" results_dict;
       if has_urls then
         ok urls <- py_getitem results_dict "detected_urls";
         ok items <- py_iter urls;
         ok item_list <- pluck "url" items;
         ok v <- py_join ", " item_list;
         let d := dict_set "DetectedUrls" v d in
         ok counts <- pluck "positives" items;
         ok positives <- py_sum counts;
         Ok (dict_set "Positives" positives d)
       else Ok d
     else Ok d);
  Ok (frame_row d).

(** [x in source_row_index]: the keys are strings; a list or a dict is
    not hashable. *)
Definition key_of (x : value) : outcome (option string) :=
  match x with
  | VStr s => Ok (Some s)
  | VList _ | VDict _ => Raise TypeError
  | _ => Ok None
  end.

Definition map_getitem (m : gmap string value) (k : string) : outcome value :=
  match m !! k with
  | Some v => Ok v
  | None => Raise (KeyError k)
  end.

Definition list_getitem (l : list string) (i : nat) : outcome string :=
  match l !! i with
  | Some x => Ok x
  | None => Raise IndexError
  end.

(** The [if] / [elif] / [else] of [_parse_vt_results] that sets the
    [Observable] and [SourceIndex] cells of the row of one element. *)
Definition correlate (n_results : nat) (obs : string) (source_idx : value)
    (source_row_index : option (gmap string value)) (observables : list string)
    (result_idx : nat) (elem : value) (row : ResultRow) : outcome ResultRow :=
  match source_row_index with
  | None => Ok (set_SourceIndex source_idx (set_Observable (VStr obs) row))
  | Some m =>
      if (n_results =? 1)%nat || (size m =? 1)%nat then
        Ok (set_SourceIndex source_idx (set_Observable (VStr obs) row))
      else
        ok has <- py_contains "resource" elem;
        if has then
          ok vt_resource <- py_getitem elem "resource";
          let row := set_Observable vt_resource row in
          ok k <- key_of vt_resource;
          match k ≫= (fun s => m !! s) with
          | Some ix => Ok (set_SourceIndex ix row)
          | None =>
              ok lit <- list_getitem observables result_idx;
              ok ix <- map_getitem m lit;
              Ok (set_SourceIndex ix row)
          end
        else
          ok lit <- list_getitem observables result_idx;
          let row := set_Observable (VStr lit) row in
          ok ix <- map_getitem m lit;
          Ok (set_SourceIndex ix row)
  end.

(** The [for] loop of [_parse_vt_results] from element [result_idx] on. *)
Fixpoint parse_elements (n_results : nat) (obs ioc_type : string)
    (source_idx : value) (source_row_index : option (gmap string value))
    (observables : list string) (result_idx : nat) (elems : list value)
  : M unit :=
  match elems with
  | [] => ret tt
  | elem :: rest =>
      do row <- lift (_parse_single_result elem ioc_type);
      let row := set_IoCType (VStr ioc_type) row in
      let row := set_Status (VStr "Success") row in
      let row := set_RawResponse (VStr (json_dumps elem)) row in
      do row <- lift (correlate n_results obs source_idx source_row_index
                        observables result_idx elem row);
      do _ <- append_results [row];
      parse_elements n_results obs ioc_type source_idx source_row_index
        observables (S result_idx) rest
  end.

(** A [str] body is decoded when it can be. *)
Definition decode (vt_results : value) : value :=
  match vt_results with
  | VStr s => default (VStr s) (json_loads s)
  | v => v
  end.

Definition parse_error_message (obs ioc_type : string) (source_idx : value)
  : string :=
  "Error parsing response to JSON: " +:+ dquote +:+ obs +:+ dquote
  +:+ ", type " +:+ dquote +:+ ioc_type +:+ dquote
  +:+ ". (Source index " +:+ fmt source_idx +:+ ")".

(** [results_to_parse]: the elements taken from the decoded body, or
    [None] on the branch that reports the parsing error. *)
Definition results_to_parse (body : value) (vt_param : option VTParams)
  : option (list value) :=
  match body, vt_param with
  | VList l, Some p => if 1 <? batch_size p then Some l else None
  | VDict d, _ => Some [VDict d]
  | _, _ => None
  end.

(** [_parse_vt_results] *)
Definition _parse_vt_results (vt_results : value) (obs ioc_type : string)
    (source_idx : value) (source_row_index : option (gmap string value))
    (vt_param : option VTParams) : M unit :=
  let body := decode vt_results in
  do to_parse <-
    match results_to_parse body vt_param with
    | Some l => ret l
    | None =>
        do _ <- _print_status (parse_error_message obs ioc_type source_idx) 1;
        ret []
    end;
  let observables :=
    match vt_param with
    | Some p =>
        if String.eqb (batch_delimiter p) "" then [obs]
        else py_split obs (batch_delimiter p)
    | None => [obs]
    end in
  parse_elements (length to_parse) obs ioc_type source_idx source_row_index
    observables O to_parse.

(** The local variables of [_lookup_ioc_type] that live across rows. *)
Record BatchState : Type := mkBatchState {
  source_row_index : gmap string value;
  obs_batch : list string;
  batch_index : Z
}.

Definition failure_status (status_code : Z) : string :=
  "Failed submission: http error " +:+ str_int status_code.

(** The [for failed_obs in obs_batch] loop of a failed submission. *)
Fixpoint record_failures (ioc_type status obs_submit : string) (status_code : Z)
    (body : value) (m : gmap string value) (batch : list string) : M unit :=
  match batch with
  | [] => ret tt
  | failed_obs :: rest =>
      do ix <- lift (map_getitem m failed_obs);
      do _ <- _add_invalid_input_result (VStr failed_obs) ioc_type status ix;
      do _ <- _print_status
                ("Error in response submitting observables: '" +:+ obs_submit
                 +:+ "', type '" +:+ ioc_type +:+ "'http status is "
                 +:+ str_int status_code +:+ ". Response: " +:+ fmt body
                 +:+ " (Source index " +:+ fmt ix) 1;
      record_failures ioc_type status obs_submit status_code body m rest
  end.

(** The index of a row: the label that [iterrows] gives, or the cell of
    the source-index column when the caller named one. *)
Definition row_index (src_index_col : option string) (row : InputRow) : value :=
  match src_index_col with
  | Some c => if String.eqb c "" then row_label row else row_source_index row
  | None => row_label row
  end.

(** First half of the loop body: validate the row's observable and, when
    it is valid, add it to the batch.  Returns the row's index too. *)
Definition add_row (ioc_type : string) (src_index_col : option string)
    (row : InputRow) (bs : BatchState) : M (value * BatchState) :=
  let index := row_index src_index_col row in
  do pp_observable <- _validate_observable (row_observable row) ioc_type index;
  match observable pp_observable with
  | Some o =>
      if String.eqb o "" then ret (index, bs)
      else ret (index,
                mkBatchState (<[o := index]> (source_row_index bs))
                  (obs_batch bs ++ [o]) (batch_index bs + 1))
  | None => ret (index, bs)
  end.

Definition submit_message (obs_submit ioc_type : string) (index : value)
  : string :=
  "Submitting observables: " +:+ dquote +:+ obs_submit +:+ dquote
  +:+ ", type " +:+ dquote +:+ ioc_type +:+ dquote
  +:+ " to VT. (Source index " +:+ fmt index +:+ ")".

(** The trigger of a submission. *)
Definition flush_due (vt_param : VTParams) (row_num row_count : nat)
    (batch : list string) : bool :=
  ((Z.of_nat (length batch) =? batch_size vt_param) || (row_num =? row_count)%nat)
  && negb (length batch =? 0)%nat.

(** Second half of the loop body: submit the batch when due. *)
Definition flush_if_due (ioc_type : string) (vt_param : VTParams)
    (row_num row_count : nat) (index : value) (bs : BatchState) : M BatchState :=
  if flush_due vt_param row_num row_count (obs_batch bs) then
    let obs_submit := String.concat (batch_delimiter vt_param) (obs_batch bs) in
    do _ <- _print_status (submit_message obs_submit ioc_type index) 2;
    do answer <- _vt_submit_request obs_submit vt_param;
    let '(body, status_code) := answer in
    do _ <-
      (if negb (status_code =? 200) then
         record_failures ioc_type (failure_status status_code) obs_submit
           status_code body (source_row_index bs) (obs_batch bs)
       else
         _parse_vt_results body obs_submit ioc_type index
           (Some (source_row_index bs)) (Some vt_param));
    ret (mkBatchState (source_row_index bs) [] 0)
  else ret bs.

Definition loop_body (ioc_type : string) (vt_param : VTParams)
    (src_index_col : option string) (row_count row_num : nat) (row : InputRow)
    (bs : BatchState) : M BatchState :=
  do r <- add_row ioc_type src_index_col row bs;
  flush_if_due ioc_type vt_param row_num row_count (fst r) (snd r).

(** The rows from number [row_num] on. *)
Fixpoint iter_rows (ioc_type : string) (vt_param : VTParams)
    (src_index_col : option string) (row_count row_num : nat)
    (rows : list InputRow) (bs : BatchState) : M BatchState :=
  match rows with
  | [] => ret bs
  | row :: rest =>
      do bs' <- loop_body ioc_type vt_param src_index_col row_count row_num row bs;
      iter_rows ioc_type vt_param src_index_col row_count (S row_num) rest bs'
  end.

Definition initial_batch : BatchState := mkBatchState ∅ [] 0.

(** [_lookup_ioc_type] *)
Definition _lookup_ioc_type (input_frame : list InputRow) (ioc_type : string)
    (src_index_col : option string) : M unit :=
  match type_params ioc_type with
  | None =>
      raise (KeyError ("Unknown ioc_type " +:+ dquote +:+ ioc_type +:+ dquote
                       +:+ dquote))
  | Some vt_param =>
      do _ <- iter_rows ioc_type vt_param src_index_col (length input_frame) 1
                input_frame initial_batch;
      ret tt
  end.

(** What [lookup_ioc] returns. *)
Inductive LookupOutput : Type :=
  | OneDict (r : ResultRow)
  | DictList (rs : list ResultRow)
  | Frame (rs : list ResultRow).

(** [lookup_ioc] *)
Definition lookup_ioc (obs ioc_type : option string) (output : string)
  : M LookupOutput :=
  match obs, ioc_type with
  | Some o, Some t =>
      let pp := preprocess_observable o t in
      match observable pp with
      | None =>
          raise (SyntaxError (fmt_opt (status pp) +:+ " for observable value " +:+ o))
      | Some pp_observable =>
          match assoc t _VT_TYPE_MAP with
          | None =>
              raise (LookupError
                       ("IoC Type " +:+ t +:+ " not recognized. Valid types are ["
                        +:+ String.concat ", " _SUPPORTED_INPUT_TYPES +:+ "]"))
          | Some vt_api_type =>
              match assoc vt_api_type _VT_API_TYPES with
              | None =>
                  raise (LookupError
                           ("IoC Type " +:+ t +:+ " is recognized by VirusTotal."))
              | Some vt_param =>
                  do answer <- _vt_submit_request pp_observable vt_param;
                  do _ <- _parse_vt_results (fst answer) pp_observable t (VInt 0)
                            None None;
                  fun st =>
                    if String.eqb output "dict" then
                      match results st with
                      | [r] => (Ok (OneDict r), st)
                      | list_res => (Ok (DictList list_res), st)
                      end
                    else (Ok (Frame (results st)), st)
              end
          end
      end
  | _, _ => raise (SyntaxError "Invalid value for observable or ioc_type")
  end.

(** [_get_supported_vt_ioc_types]: the supported types whose VirusTotal
    type is not [None]; the subscript raises for a type that the map
    lacks. *)
Fixpoint supported_with_vt_type (types : list string) : outcome (list string) :=
  match types with
  | [] => Ok []
  | t :: rest =>
      match assoc t _VT_TYPE_MAP with
      | Some _ => ok ts <- supported_with_vt_type rest; Ok (t :: ts)
      | None => Raise (KeyError t)
      end
  end.

Definition _get_supported_vt_ioc_types : outcome (list string) :=
  supported_with_vt_type _SUPPORTED_INPUT_TYPES.

(** [d[key] = v] on a dict kept in insertion order: a key that is there
    keeps its place. *)
Fixpoint assign {A} (key : string) (v : A) (d : list (string * A))
  : list (string * A) :=
  match d with
  | [] => [(key, v)]
  | (k, x) :: d' =>
      if String.eqb key k then (k, v) :: d' else (k, x) :: assign key v d'
  end.

(** The two loops of [lookup_iocs] that fill [_ioc_custom_type_map]. *)
Definition map_types_to_themselves (types : list string)
    (custom : list (string * string)) : list (string * string) :=
  fold_left (fun m k => assign k k m) types custom.

Definition add_custom_mappings (types : list string)
    (kwargs custom : list (string * string)) : list (string * string) :=
  fold_left (fun m kv => if str_in kv.1 types then assign kv.1 kv.2 m else m)
    kwargs custom.

(** The caller's frame: its column names and, per row, the cell of the
    type column together with what [_lookup_ioc_type] reads of the row. *)
Record DataFrame : Type := mkDataFrame {
  frame_columns : list string;
  frame_rows : list (value * InputRow)
}.

(** [data[data[type_col] == mapped_type]] *)
Definition rows_of_type (data : DataFrame) (mapped_type : string)
  : list InputRow :=
  map snd (filter (fun r => cell_is r.1 mapped_type) (frame_rows data)).

(** The loop of [lookup_iocs] over the items of [_ioc_custom_type_map]. *)
Fixpoint lookup_each_type (data : DataFrame) (src_idx_col : option string)
    (items : list (string * string)) : M unit :=
  match items with
  | [] => ret tt
  | (ioc_type, mapped_type) :: rest =>
      do _ <- _lookup_ioc_type (rows_of_type data mapped_type) ioc_type
                src_idx_col;
      lookup_each_type data src_idx_col rest
  end.

Definition completion_message (n_results n_rows : nat) : string :=
  "Submission complete. " +:+ str_int (Z.of_nat n_results)
  +:+ " responses from " +:+ str_int (Z.of_nat n_rows) +:+ " input rows".

(** A [VTLookup] instance with its [_ioc_custom_type_map]. *)
Record VTSession : Type := mkVTSession {
  _ioc_custom_type_map : list (string * string);
  engine : VTLookup
}.

(** [lookup_iocs]: the type map is updated first and stays so whatever
    happens next; the frame is then looked up type by type. *)
Definition lookup_iocs (data : DataFrame) (src_index_col : string)
    (kwargs : list (string * string)) (s : VTSession)
  : outcome (list ResultRow) * VTSession :=
  match _get_supported_vt_ioc_types with
  | Raise e => (Raise e, s)
  | Ok types =>
      let custom :=
        add_custom_mappings types kwargs
          (map_types_to_themselves types (_ioc_custom_type_map s)) in
      let src_idx_col :=
        if str_in src_index_col (frame_columns data)
        then Some src_index_col else None in
      let run :=
        do _ <- lookup_each_type data src_idx_col custom;
        do _ <- (fun st =>
                   _print_status
                     (completion_message (length (results st))
                        (length (frame_rows data))) 2 st);
        (fun st => (Ok (results st), st)) in
      let '(out, st') := run (engine s) in
      (out, mkVTSession custom st')
  end.

(** ** Properties *)

(** *** The results frame only grows *)

(** The rows of [old] are the first rows of [new], each at its position. *)
Definition rows_kept (old new : list ResultRow) : Prop :=
  (forall (i : nat) (r : ResultRow), old !! i = Some r -> new !! i = Some r)
  /\ (length old <= length new)%nat.

(** A computation that only appends to [results], whether it returns or
    raises. *)
Definition appends {A} (m : M A) : Prop :=
  forall st, results st `prefix_of` results (m st).2.

(** A computation that sends no request, whether it returns or raises. *)
Definition silent {A} (m : M A) : Prop :=
  forall st, requests (m st).2 = requests st.

(** A computation that returns, on every state. *)
Definition returns {A} (m : M A) : Prop :=
  forall st, exists a st', m st = (Ok a, st').

(** What holds of the batch between two rows: every pending observable
    has its entry in the map, and the batch is not yet full. *)
Definition batch_inv (vt_param : VTParams) (bs : BatchState) : Prop :=
  Forall (fun o => is_Some (source_row_index bs !! o)) (obs_batch bs)
  /\ Z.of_nat (length (obs_batch bs)) < batch_size vt_param.


(** A decoded body of a shape that yields no element: not a single
    object, and not a list for a type that is submitted in batches. *)
Definition unexpected_shape (body : value) (vt_param : option VTParams) : Prop :=
  match body with
  | VDict _ => False
  | VList _ => forall p, vt_param = Some p -> batch_size p <= 1
  | _ => True
  end.

(** The instance once a batch has been announced and sent. *)
Definition sent (ioc_type : string) (vt_param : VTParams) (index : value)
    (batch : list string) (st : VTLookup) : VTLookup :=
  let obs_submit := String.concat (batch_delimiter vt_param) batch in
  ((do _ <- _print_status (submit_message obs_submit ioc_type index) 2;
    _vt_submit_request obs_submit vt_param) st).2.

(** The batch after a submission. *)
Definition emptied (bs : BatchState) : BatchState :=
  mkBatchState (source_row_index bs) [] 0.

(** The rows that a value returned by [lookup_ioc] holds. *)
Definition output_rows (out : LookupOutput) : list ResultRow :=
  match out with
  | OneDict r => [r]
  | DictList rs => rs
  | Frame rs => rs
  end.

(** The rows that hold a value as their observable, and those that hold
    it as one of their hashes. *)
Definition same_observable (o : string) (rs : list ResultRow) : list ResultRow :=
  filter (fun r => cell_is (Observable r) o) rs.

Definition same_hash (o : string) (rs : list ResultRow) : list ResultRow :=
  filter (fun r => cell_is (MD5 r) o || cell_is (SHA1 r) o
                   || cell_is (SHA256 r) o) rs.

(** The earlier rows that a hash value matches: those with that very
    observable, or, when there is none, those with that very hash. *)
Definition matched_rows (o : string) (rs : list ResultRow) : list ResultRow :=
  match same_observable o rs with
  | [] => same_hash o rs
  | same => same
  end.

(** The copy of an earlier row that is added for a repeated value. *)
Definition duplicate_clone (o : string) (ix : value) (r : ResultRow) : ResultRow :=
  set_Status (VStr "Duplicate") (set_SourceIndex ix (set_Observable (VStr o) r)).

(** The "resource" field that a response element carries, if any. *)
Definition resource_field (elem : value) : option value :=
  match elem with
  | VDict d => dict_get "resource" d
  | _ => None
  end.

(** A response element that is an object whose "resource", if it has
    one, is a string. *)
Definition plain_element (elem : value) : Prop :=
  exists d, elem = VDict d
            /\ forall r, dict_get "resource" d = Some r -> exists s, r = VStr s.

(** Sample data: two MD5 digests, one of them also in upper case, the
    registry's descriptors of the file and URL types, a fresh instance, and
    stand-ins for the interpreter's, the pre-processing module's and the
    service's parts: a decoder that rejects the texts used below, an
    opaque serializer and [repr], a sanitizer that accepts its input as it
    is, a service that answers every request with the same JSON body and
    status code, and one whose body is never JSON. *)
Definition md5_a : string := "d41d8cd98f00b204e9800998ecf8427e".
Definition md5_b : string := "900150983cd24fb0d6963f7d28e17f72".
Definition md5_a_upper : string := "D41D8CD98F00B204E9800998ECF8427E".

Definition file_params : VTParams :=
  mkVTParams "file" 25 "," "get" "resource" (Some _HDR_GZIP).
Definition url_params : VTParams :=
  mkVTParams "url" 1 newline "get" "resource" (Some _HDR_GZIP).

Definition new_instance : VTLookup := mkVTLookup 1 [] [] [].

Definition no_decoder : string -> option value := fun _ => None.
Definition some_dumps : value -> string := fun _ => "{...}".
Definition some_repr : value -> string := fun _ => "[...]".
Definition accept_as_is : string -> string -> SanitizedObservable :=
  fun o _ => mkSanitizedObservable (Some o) (Some "ok").
Definition always_answer (body : value) (status_code : Z)
  : nat -> string -> VTParams -> Response :=
  fun _ _ _ => mkResponse status_code (Some body) true.
Definition never_json (status_code : Z) : nat -> string -> VTParams -> Response :=
  fun _ _ _ => mkResponse status_code None true.

Definition input_row (i : Z) (o : string) : InputRow :=
  mkInputRow (VInt i) (Some o) VNone.

(** The row of an earlier successful lookup of [md5_a]. *)
Definition earlier_row : ResultRow :=
  mkResultRow (VStr md5_a) (VStr "md5_hash") (VStr "Success") (VInt 1)
    (VStr "{...}") (VStr md5_a) (VInt 0) (VStr "Scan finished") VNone VNone
    (VInt 0) (VStr md5_a) VNone VNone VNone VNone VNone.

Definition quota_body : value := VDict [("error", VStr "quota exceeded")].

(** The map of a batch of the two digests, from rows 0 and 1. *)
Definition two_digests : gmap string value :=
  <[md5_b := VInt 1]> (<[md5_a := VInt 0]> ∅).

Definition batch_of_one (o : string) (ix : value) : BatchState :=
  mkBatchState (<[o := ix]> ∅) [o] (0 + 1).

(** An input row that needs no lookup: the sanitizer accepts its
    observable, and that observable is the Observable of a row of the
    results. *)
Definition already_answered (ioc_type : string) (rs : list ResultRow)
    (row : InputRow) : Prop :=
  exists o, row_observable row = Some o
    /\ is_Some (observable (preprocess_observable o ioc_type))
    /\ exists r, r ∈ rs /\ Observable r = VStr o.

(** The list of literals against which [_parse_vt_results] correlates by
    position. *)
Definition submitted_literals (obs : string) (vt_param : option VTParams)
  : list string :=
  match vt_param with
  | Some p =>
      if String.eqb (batch_delimiter p) "" then [obs]
      else py_split obs (batch_delimiter p)
  | None => [obs]
  end.

(** Two rows that differ at most in Observable and SourceIndex. *)
Definition same_but_source (r r' : ResultRow) : Prop :=
  set_SourceIndex (SourceIndex r) (set_Observable (Observable r) r') = r.

(** The type map of an instance between two calls of [lookup_iocs]: empty
    as [__init__] leaves it, or keyed by the supported types in their
    order. *)
Definition well_keyed (custom : list (string * string)) : Prop :=
  custom = [] \/ custom.*1 = _SUPPORTED_INPUT_TYPES.

(** The type map that a call with the mappings [kwargs] sets up: each
    supported type under the caller's name for it, or under its own. *)
Definition type_map_for (kwargs : list (string * string))
  : list (string * string) :=
  map (fun k => (k, default k (assoc k kwargs))) _SUPPORTED_INPUT_TYPES.

(** A computation that, on an instance whose verbosity is below 1, leaves
    the log and the verbosity as they are. *)
Definition hushed {A} (m : M A) : Prop :=
  forall st, verbosity st < 1 ->
    verbosity (m st).2 = verbosity st /\ log (m st).2 = log st.

(** More sample data: an instance that holds the row of an earlier
    lookup, a silent instance, a session as [__init__] leaves it, and a
    frame whose only row is tagged with a name that the registry does not
    have. *)
Definition instance_with_earlier_row : VTLookup :=
  mkVTLookup 1 [earlier_row] [] [].
Definition silent_instance : VTLookup := mkVTLookup 0 [] [] [].
Definition fresh_session : VTSession := mkVTSession [] new_instance.
Definition sha256_frame : DataFrame :=
  mkDataFrame ["Observable"; "IoCType"]
    [(VStr "sha256_hash",
      input_row 0
        "e3b0c44298fc1c149afbf4c8996fb92427ae41e4649b934ca495991b7852b855")].

(** The pandas versions, one per behaviour. *)
Definition every_pandas : list pandas_version :=
  [Before_2_0; From_2_0; From_2_2].




(** The entries of the service's multi-valued fields. *)
Definition host_entry (h : string) : value := VDict [("hostname", VStr h)].
Definition ip_entry (a : string) : value := VDict [("ip_address", VStr a)].
Definition url_entry (e : string * Z) : value :=
  VDict [("url", VStr e.1); ("positives", VInt e.2)].

Definition sum_Z (zs : list Z) : Z := fold_right Z.add 0 zs.

(** An address or domain report whose multi-valued fields, where present,
    are lists of such entries. *)
Definition well_formed_report (t : string) (d : list (string * value)) : Prop :=
  (dict_get "resolutions" d = None
   \/ exists xs, dict_get "resolutions" d =
                  Some (VList (map (if String.eqb t "ipv4" then host_entry
                                    else ip_entry) xs)))
  /\ (dict_get "detected_urls" d = None
      \/ exists es, dict_get "detected_urls" d = Some (VList (map url_entry es))).

Lemma prefix_rows_kept (old new : list ResultRow) :
  old `prefix_of` new -> rows_kept old new.
Proof.
  intros [k ->]. split.
  - intros i r Hi. by apply lookup_app_l_Some.
  - rewrite length_app. lia.
Qed.

Lemma appends_ret {A} (a : A) : appends (ret a).
Proof. by intros st. Qed.

Lemma appends_raise {A} (e : exn) : appends (@raise A e).
Proof. by intros st. Qed.

Lemma appends_lift {A} (o : outcome A) : appends (lift o).
Proof. by intros st. Qed.

Lemma appends_bind {A B} (m : M A) (f : A -> M B) :
  appends m -> (forall a, appends (f a)) -> appends (bind m f).
Proof.
  intros Hm Hf st. unfold bind. specialize (Hm st).
  destruct (m st) as [[a|e] st1]; simpl in *; [|done].
  etrans; [exact Hm|apply Hf].
Qed.

Lemma appends_append_results rows : appends (append_results rows).
Proof. intros st. simpl. by apply prefix_app_r. Qed.

Lemma appends_print_status msg lvl : appends (_print_status msg lvl).
Proof. intros st. unfold _print_status. by case_match. Qed.

Lemma appends_submit s p : appends (_vt_submit_request s p).
Proof. intros st. unfold _vt_submit_request. by case_match. Qed.

Lemma appends_add_invalid obs t s ix :
  appends (_add_invalid_input_result obs t s ix).
Proof. by intros st. Qed.

Lemma appends_check_duplicate obs t ix :
  appends (_check_duplicate_submission obs t ix).
Proof.
  intros st. unfold _check_duplicate_submission.
  repeat case_match; simpl; [by apply prefix_app_r|done|done].
Qed.

Create HintDb appends discriminated.
#[local] Hint Resolve appends_ret appends_raise appends_lift
  appends_append_results appends_print_status appends_submit
  appends_add_invalid appends_check_duplicate : appends.

Ltac appends_step :=
  first
    [ solve [eauto with appends]
    | apply appends_bind; [|intros ?]
    | case_match ].

Lemma appends_validate obs t ix : appends (_validate_observable obs t ix).
Proof. unfold _validate_observable. repeat appends_step. Qed.

Lemma appends_parse_elements n obs t ix m observables i elems :
  appends (parse_elements n obs t ix m observables i elems).
Proof.
  revert i. induction elems as [|e rest IH]; intros i; simpl.
  - apply appends_ret.
  - repeat appends_step.
Qed.

Lemma appends_parse_vt_results v obs t ix m p :
  appends (_parse_vt_results v obs t ix m p).
Proof.
  unfold _parse_vt_results.
  apply appends_bind; [|intros ?; apply appends_parse_elements].
  repeat appends_step.
Qed.

Lemma appends_record_failures t s sub code body m batch :
  appends (record_failures t s sub code body m batch).
Proof.
  induction batch as [|o rest IH]; simpl.
  - apply appends_ret.
  - repeat appends_step.
Qed.

#[local] Hint Resolve appends_validate appends_parse_elements
  appends_parse_vt_results appends_record_failures : appends.

Lemma appends_add_row t c row bs : appends (add_row t c row bs).
Proof. unfold add_row. repeat appends_step. Qed.

Lemma appends_flush_if_due t p n cnt ix bs :
  appends (flush_if_due t p n cnt ix bs).
Proof.
  unfold flush_if_due. case_match; [|apply appends_ret].
  apply appends_bind; [eauto with appends|intros _].
  apply appends_bind; [eauto with appends|intros [body code]].
  repeat appends_step.
Qed.

#[local] Hint Resolve appends_add_row appends_flush_if_due : appends.

Lemma appends_loop_body t p c cnt n row bs :
  appends (loop_body t p c cnt n row bs).
Proof. unfold loop_body. repeat appends_step. Qed.

Lemma appends_iter_rows t p c cnt n rows bs :
  appends (iter_rows t p c cnt n rows bs).
Proof.
  revert n bs. induction rows as [|row rest IH]; intros n bs; simpl.
  - apply appends_ret.
  - apply appends_bind; [apply appends_loop_body|intros ?; apply IH].
Qed.

Lemma appends_lookup_ioc_type frame t c : appends (_lookup_ioc_type frame t c).
Proof.
  unfold _lookup_ioc_type. case_match; [|apply appends_raise].
  apply appends_bind; [apply appends_iter_rows|intros ?; apply appends_ret].
Qed.

Lemma appends_lookup_ioc obs t out : appends (lookup_ioc obs t out).
Proof.
  unfold lookup_ioc.
  destruct obs as [o|]; [|apply appends_raise].
  destruct t as [t|]; [|apply appends_raise].
  destruct (observable (preprocess_observable o t)); [|apply appends_raise].
  destruct (assoc t _VT_TYPE_MAP) as [vt|]; [|apply appends_raise].
  destruct (assoc vt _VT_API_TYPES) as [p|]; [|apply appends_raise].
  apply appends_bind; [apply appends_submit|intros ?].
  apply appends_bind; [apply appends_parse_vt_results|intros _].
  intros st. destruct (String.eqb out "dict"); [|done].
  destruct (results st) as [|r [|r' rs]] eqn:E; simpl; by rewrite ?E.
Qed.

(** *** Reading one response element *)

Lemma pluck_entries (key : string) (mk : string -> value) (xs : list string) :
  (forall x, py_contains key (mk x) = Ok true /\ py_getitem (mk x) key = Ok (VStr x)) ->
  pluck key (map mk xs) = Ok (map VStr xs).
Proof.
  intros Hmk. induction xs as [|x xs IH]; simpl; [done|].
  destruct (Hmk x) as [-> ->]. simpl. by rewrite IH.
Qed.

Lemma as_strs_strings (xs : list string) : as_strs (map VStr xs) = Ok xs.
Proof. induction xs as [|x xs IH]; simpl; [done|]. by rewrite IH. Qed.

Lemma py_join_strings (sep : string) (xs : list string) :
  py_join sep (map VStr xs) = Ok (VStr (String.concat sep xs)).
Proof. unfold py_join. by rewrite as_strs_strings. Qed.

Lemma obind_Ok {A B} (c : outcome A) (f : A -> outcome B) (b : B) :
  obind c f = Ok b -> exists a, c = Ok a /\ f a = Ok b.
Proof. destruct c as [a|e]; simpl; [eauto|discriminate]. Qed.

(** Take apart a successful chain of [ok x <- c; k] in a hypothesis. *)
Ltac ok_inv H :=
  lazymatch type of H with
  | obind _ _ = Ok _ =>
      let a := fresh "a" in
      let E := fresh "E" in
      apply obind_Ok in H; destruct H as (a & E & H);
      simpl in E, H; ok_inv E; ok_inv H
  | (if ?b then _ else _) = Ok _ =>
      let Eb := fresh "Eb" in
      destruct b eqn:Eb; simpl in H; ok_inv H
  | Raise _ = Ok _ => discriminate H
  | _ => idtac
  end.

Lemma py_sum_from_ints (acc : Z) (zs : list Z) :
  py_sum_from acc (map VInt zs) = Ok (acc + sum_Z zs).
Proof.
  revert acc. induction zs as [|z zs IH]; intros acc; simpl.
  - f_equal. lia.
  - rewrite IH. f_equal. lia.
Qed.

Lemma pluck_url_positives (es : list (string * Z)) :
  pluck "positives" (map url_entry es) = Ok (map VInt es.*2).
Proof. induction es as [|e es IH]; simpl; [done|]. by rewrite IH. Qed.

Lemma pluck_url_urls (es : list (string * Z)) :
  pluck "url" (map url_entry es) = Ok (map VStr es.*1).
Proof. induction es as [|e es IH]; simpl; [done|]. by rewrite IH. Qed.

(** The cells that [_parse_single_result] fills from the multi-valued
    fields of an address or domain report. *)
Lemma parse_single_flattening (d : list (string * value)) (t : string)
    (row : ResultRow) :
  t = "ipv4" \/ t = "dns" ->
  _parse_single_result (VDict d) t = Ok row ->
  (forall hs, t = "ipv4" ->
     dict_get "resolutions" d = Some (VList (map host_entry hs)) ->
     ResolvedDomains row = VStr (String.concat ", " hs))
  /\ (forall ips, t = "dns" ->
     dict_get "resolutions" d = Some (VList (map ip_entry ips)) ->
     ResolvedIPs row = VStr (String.concat ", " ips))
  /\ (forall es,
     dict_get "detected_urls" d = Some (VList (map url_entry es)) ->
     DetectedUrls row = VStr (String.concat ", " es.*1)
     /\ Positives row = VInt (sum_Z es.*2)).
Proof.
  intros Ht Hrow. unfold _parse_single_result in Hrow.
  assert (Hhost : forall hs, pluck "hostname" (map host_entry hs) = Ok (map VStr hs))
    by (intros hs; by apply pluck_entries).
  assert (Hip : forall ips, pluck "ip_address" (map ip_entry ips) = Ok (map VStr ips))
    by (intros ips; by apply pluck_entries).
  destruct Ht as [-> | ->]; simpl in Hrow;
    destruct (dict_get "resolutions" d) as [res|] eqn:Hres;
    destruct (dict_get "detected_urls" d) as [urls|] eqn:Hurls;
    simpl in Hrow; ok_inv Hrow; simplify_eq;
    (split; [|split]); intros xs; intros; simplify_eq; simpl in *;
    repeat match goal with
      | H : Ok _ = Ok _ |- _ => injection H as H; subst
      | H : pluck "hostname" (map host_entry _) = Ok _ |- _ =>
          rewrite Hhost in H; simplify_eq
      | H : pluck "ip_address" (map ip_entry _) = Ok _ |- _ =>
          rewrite Hip in H; simplify_eq
      | H : pluck "url" (map url_entry _) = Ok _ |- _ =>
          rewrite pluck_url_urls in H; simplify_eq
      | H : pluck "positives" (map url_entry _) = Ok _ |- _ =>
          rewrite pluck_url_positives in H; simplify_eq
      | H : py_join _ (map VStr _) = Ok _ |- _ =>
          rewrite py_join_strings in H; simplify_eq
      | H : py_sum (map VInt _) = Ok _ |- _ =>
          unfold py_sum in H; rewrite py_sum_from_ints in H; simpl in H;
          simplify_eq
      end; done.
Qed.

Lemma parse_single_returns (d : list (string * value)) (t : string) :
  t = "ipv4" \/ t = "dns" ->
  well_formed_report t d ->
  exists row, _parse_single_result (VDict d) t = Ok row.
Proof.
  intros Ht [Hres Hurls]. unfold _parse_single_result.
  assert (Hhost : forall hs, pluck "hostname" (map host_entry hs) = Ok (map VStr hs))
    by (intros hs; by apply pluck_entries).
  assert (Hip : forall ips, pluck "ip_address" (map ip_entry ips) = Ok (map VStr ips))
    by (intros ips; by apply pluck_entries).
  destruct Ht as [-> | ->]; simpl in *;
    destruct Hres as [-> | [xs ->]]; destruct Hurls as [-> | [es ->]]; simpl;
    rewrite ?Hhost, ?Hip; simpl; rewrite ?py_join_strings; simpl;
    rewrite ?pluck_url_urls; simpl; rewrite ?py_join_strings; simpl;
    rewrite ?pluck_url_positives; simpl; unfold py_sum;
    rewrite ?py_sum_from_ints; simpl; eauto.
Qed.

(** C6: an address report with resolutions [{hostname: a.com}, {hostname:
    b.com}] gives ResolvedDomains "a.com, b.com"; a domain report's
    ip_address values give ResolvedIPs in the same way; and for either type
    detected_urls [{url: x, positives: 2}, {url: y, positives: 3}] gives
    DetectedUrls "x, y" and Positives 5, whatever top-level positives the
    report carries.  A report whose multi-valued fields are well formed
    does yield a row. *)
Theorem multi_valued_flattening (d : list (string * value)) (t : string) :
  t = "ipv4" \/ t = "dns" ->
  (forall row, _parse_single_result (VDict d) t = Ok row ->
     (t = "ipv4" ->
      dict_get "resolutions" d =
        Some (VList [VDict [("hostname", VStr "a.com")];
                     VDict [("hostname", VStr "b.com")]]) ->
      ResolvedDomains row = VStr "a.com, b.com")
     /\ (forall ips, t = "dns" ->
         dict_get "resolutions" d = Some (VList (map ip_entry ips)) ->
         ResolvedIPs row = VStr (String.concat ", " ips))
     /\ (dict_get "detected_urls" d =
          Some (VList [VDict [("url", VStr "x"); ("positives", VInt 2)];
                       VDict [("url", VStr "y"); ("positives", VInt 3)]]) ->
         DetectedUrls row = VStr "x, y" /\ Positives row = VInt 5))
  /\ (well_formed_report t d ->
      exists row, _parse_single_result (VDict d) t = Ok row).
Proof.
  intros Ht. split; [|by apply parse_single_returns].
  intros row Hrow.
  destruct (parse_single_flattening d t row Ht Hrow) as (Hdom & Hips & Hurls).
  split; [|split].
  - intros -> Hres. exact (Hdom ["a.com"; "b.com"] eq_refl Hres).
  - exact Hips.
  - intros Hd. exact (Hurls [("x", 2); ("y", 3)] Hd).
Qed.

(** *** Requests are sent by the flush only *)

Lemma silent_ret {A} (a : A) : silent (ret a).
Proof. by intros st. Qed.

Lemma silent_raise {A} (e : exn) : silent (@raise A e).
Proof. by intros st. Qed.

Lemma silent_lift {A} (o : outcome A) : silent (lift o).
Proof. by intros st. Qed.

Lemma silent_bind {A B} (m : M A) (f : A -> M B) :
  silent m -> (forall a, silent (f a)) -> silent (bind m f).
Proof.
  intros Hm Hf st. unfold bind. specialize (Hm st).
  destruct (m st) as [[a|e] st1]; simpl in *; [|done].
  by rewrite Hf.
Qed.

Lemma silent_append_results rows : silent (append_results rows).
Proof. by intros st. Qed.

Lemma silent_print_status msg lvl : silent (_print_status msg lvl).
Proof. intros st. unfold _print_status. by case_match. Qed.

Lemma silent_add_invalid obs t s ix :
  silent (_add_invalid_input_result obs t s ix).
Proof. by intros st. Qed.

Lemma silent_check_duplicate obs t ix :
  silent (_check_duplicate_submission obs t ix).
Proof.
  intros st. unfold _check_duplicate_submission. by repeat case_match.
Qed.

Create HintDb silent discriminated.
#[local] Hint Resolve silent_ret silent_raise silent_lift
  silent_append_results silent_print_status silent_add_invalid
  silent_check_duplicate : silent.

Ltac silent_step :=
  first
    [ solve [eauto with silent]
    | apply silent_bind; [|intros ?]
    | case_match ].

Lemma silent_validate obs t ix : silent (_validate_observable obs t ix).
Proof. unfold _validate_observable. repeat silent_step. Qed.

Lemma silent_parse_elements n obs t ix m observables i elems :
  silent (parse_elements n obs t ix m observables i elems).
Proof.
  revert i. induction elems as [|e rest IH]; intros i; simpl.
  - apply silent_ret.
  - repeat silent_step.
Qed.

Lemma silent_parse_vt_results v obs t ix m p :
  silent (_parse_vt_results v obs t ix m p).
Proof.
  unfold _parse_vt_results.
  apply silent_bind; [|intros ?; apply silent_parse_elements].
  repeat silent_step.
Qed.

Lemma silent_record_failures t s sub code body m batch :
  silent (record_failures t s sub code body m batch).
Proof.
  induction batch as [|o rest IH]; simpl.
  - apply silent_ret.
  - repeat silent_step.
Qed.

#[local] Hint Resolve silent_validate silent_parse_elements
  silent_parse_vt_results silent_record_failures : silent.

Lemma silent_add_row t c row bs : silent (add_row t c row bs).
Proof. unfold add_row. repeat silent_step. Qed.

(** *** The batch builder *)

Lemma returns_ret {A} (a : A) : returns (ret a).
Proof. intros st. by eexists _, _. Qed.

Lemma returns_bind {A B} (m : M A) (f : A -> M B) :
  returns m -> (forall a, returns (f a)) -> returns (bind m f).
Proof.
  intros Hm Hf st. unfold bind.
  destruct (Hm st) as (a & st1 & ->). apply Hf.
Qed.

Lemma returns_print_status msg lvl : returns (_print_status msg lvl).
Proof. intros st. unfold _print_status. case_match; by eexists _, _. Qed.

(** A row that validation lets return leaves the batch as it is or adds
    one non-empty observable, recorded in the map under the row's index. *)
Lemma add_row_shape t c row bs st ix bs1 st1 :
  add_row t c row bs st = (Ok (ix, bs1), st1) ->
  ix = row_index c row
  /\ (bs1 = bs
      \/ exists q, q <> ""
           /\ bs1 = mkBatchState (<[q := row_index c row]> (source_row_index bs))
                      (obs_batch bs ++ [q]) (batch_index bs + 1)).
Proof.
  unfold add_row, bind.
  destruct (_validate_observable (row_observable row) t (row_index c row) st)
    as [[pp|e] st']; [|discriminate].
  destruct (observable pp) as [o|]; [|intros [= <- <- _]; auto].
  destruct (String.eqb_spec o ""); intros [= <- <- _]; eauto.
Qed.

Lemma add_row_inv p t c row bs st ix bs1 st1 :
  batch_inv p bs ->
  add_row t c row bs st = (Ok (ix, bs1), st1) ->
  Forall (fun o => is_Some (source_row_index bs1 !! o)) (obs_batch bs1)
  /\ Z.of_nat (length (obs_batch bs1)) <= batch_size p.
Proof.
  intros [Hkeys Hlen] Hadd.
  destruct (add_row_shape t c row bs st ix bs1 st1 Hadd) as [_ Hshape].
  destruct Hshape as [-> | (q & Hq & ->)]; simpl.
  - split; [done|lia].
  - split.
    + apply Forall_app. split.
      * eapply Forall_impl; [exact Hkeys|]. intros o [v Hv]; simpl.
        destruct (decide (q = o)) as [->|Hne].
        -- rewrite lookup_insert_eq. eauto.
        -- rewrite lookup_insert_ne; eauto.
      * apply Forall_singleton. rewrite lookup_insert_eq. eauto.
    + rewrite length_app. simpl. lia.
Qed.

Lemma flush_due_spec p n cnt batch :
  flush_due p n cnt batch = true <->
  batch <> [] /\ (Z.of_nat (length batch) = batch_size p \/ n = cnt).
Proof.
  unfold flush_due.
  rewrite andb_true_iff, orb_true_iff, negb_true_iff, Z.eqb_eq, !Nat.eqb_eq,
    Nat.eqb_neq.
  destruct batch; simpl; split; intros [? ?]; split; auto; congruence.
Qed.

(** The descriptors of the registry are those of known API types. *)
Lemma type_params_url t p :
  type_params t = Some p -> exists u, _get_vt_api_url (api_type p) = Ok u.
Proof.
  unfold type_params. simpl.
  repeat (destruct (String.eqb t _);
          [simpl; intros [= <-]; eexists; reflexivity|]).
  discriminate.
Qed.

Lemma submit_request_requests s p st :
  requests (_vt_submit_request s p st).2 =
  requests st ++ match _get_vt_api_url (api_type p) with
                 | Ok _ => [(s, p)]
                 | Raise _ => []
                 end.
Proof.
  unfold _vt_submit_request.
  destruct (_get_vt_api_url (api_type p)); simpl; [done|by rewrite app_nil_r].
Qed.

(** What a row's second half sends, whether it returns or raises. *)
Lemma flush_if_due_requests_any t p n cnt ix bs st :
  requests (flush_if_due t p n cnt ix bs st).2 =
  requests st ++
    (if flush_due p n cnt (obs_batch bs)
     then match _get_vt_api_url (api_type p) with
          | Ok _ => [(String.concat (batch_delimiter p) (obs_batch bs), p)]
          | Raise _ => []
          end
     else []).
Proof.
  unfold flush_if_due. destruct (flush_due p n cnt (obs_batch bs)); simpl.
  2: by rewrite app_nil_r.
  set (sub := String.concat (batch_delimiter p) (obs_batch bs)).
  unfold bind at 1.
  destruct (returns_print_status (submit_message sub t ix) 2 st)
    as ([] & st1 & Hp).
  pose proof (silent_print_status (submit_message sub t ix) 2 st) as Hs.
  rewrite Hp in Hs |- *. simpl in Hs. rewrite <- Hs.
  unfold bind at 1.
  pose proof (submit_request_requests sub p st1) as Hreq.
  destruct (_vt_submit_request sub p st1) as [[[body code]|e] st2];
    simpl in Hreq; [|done].
  rewrite <- Hreq.
  assert (Hsil : forall (m : M unit) (b : BatchState),
            silent m -> requests (bind m (fun _ => ret b) st2).2 = requests st2).
  { intros m b Hm. apply (silent_bind m (fun _ => ret b)); [done|].
    intros _. apply silent_ret. }
  destruct (negb (code =? 200)); apply Hsil; eauto with silent.
Qed.

Lemma flush_if_due_requests t p n cnt ix bs st u :
  _get_vt_api_url (api_type p) = Ok u ->
  requests (flush_if_due t p n cnt ix bs st).2 =
  requests st ++
    (if flush_due p n cnt (obs_batch bs)
     then [(String.concat (batch_delimiter p) (obs_batch bs), p)] else []).
Proof. intros Hu. by rewrite flush_if_due_requests_any, Hu. Qed.

Lemma flush_if_due_batch t p n cnt ix bs st bs' st' :
  flush_if_due t p n cnt ix bs st = (Ok bs', st') ->
  bs' = if flush_due p n cnt (obs_batch bs)
        then mkBatchState (source_row_index bs) [] 0 else bs.
Proof.
  unfold flush_if_due. destruct (flush_due p n cnt (obs_batch bs)).
  2: by intros [= -> _].
  unfold bind.
  repeat (case_match; simplify_eq; try done).
  all: by intros [= <- _].
Qed.

Lemma loop_body_inv t p c cnt n row bs st bs' st' :
  1 <= batch_size p ->
  batch_inv p bs ->
  loop_body t p c cnt n row bs st = (Ok bs', st') ->
  batch_inv p bs'.
Proof.
  intros Hsize Hinv. unfold loop_body, bind at 1.
  destruct (add_row t c row bs st) as [[[ix bs1]|e] st1] eqn:Hadd;
    [|discriminate].
  simpl. intros Hflush.
  destruct (add_row_inv p t c row bs st _ _ _ Hinv Hadd) as [Hkeys Hlen].
  apply flush_if_due_batch in Hflush. subst bs'.
  destruct (flush_due p n cnt (obs_batch bs1)) eqn:Hdue.
  - split; simpl; [constructor|lia].
  - split; [done|].
    destruct (decide (Z.of_nat (length (obs_batch bs1)) = batch_size p))
      as [Hfull|]; [|lia].
    assert (flush_due p n cnt (obs_batch bs1) = true); [|congruence].
    apply flush_due_spec. split; [|by left].
    intros Hnil. rewrite Hnil in Hfull. simpl in Hfull. lia.
Qed.

Lemma initial_batch_inv p : 1 <= batch_size p -> batch_inv p initial_batch.
Proof. intros. split; simpl; [constructor|lia]. Qed.

Lemma iter_rows_inv t p c cnt n rows bs st bs' st' :
  1 <= batch_size p ->
  batch_inv p bs ->
  iter_rows t p c cnt n rows bs st = (Ok bs', st') ->
  batch_inv p bs'.
Proof.
  intros Hsize. revert n bs st.
  induction rows as [|row rest IH]; intros n bs st Hinv; simpl.
  - by intros [= <- _].
  - unfold bind.
    destruct (loop_body t p c cnt n row bs st) as [[bs1|e] st1] eqn:Hbody;
      [|discriminate].
    apply IH. by eapply loop_body_inv.
Qed.

Lemma type_params_batch_size t p :
  type_params t = Some p -> batch_size p = 1 \/ batch_size p = 25.
Proof.
  unfold type_params. simpl.
  repeat (destruct (String.eqb t _); [simpl; intros [= <-]; simpl; auto|]).
  discriminate.
Qed.

(** The loop over a frame is the loop over its first rows followed by the
    loop over the others, the row numbers running on. *)
Lemma iter_rows_app t p c cnt n rows1 rows2 bs st :
  iter_rows t p c cnt n (rows1 ++ rows2) bs st =
  bind (iter_rows t p c cnt n rows1 bs)
       (iter_rows t p c cnt (n + length rows1) rows2) st.
Proof.
  revert n bs st. induction rows1 as [|row rows1 IH]; intros n bs st; simpl.
  - unfold bind, ret. by rewrite Nat.add_0_r.
  - unfold bind at 1 2 3.
    destruct (loop_body t p c cnt n row bs st) as [[bs1|e] st1]; [|done].
    rewrite IH. by rewrite Nat.add_succ_r.
Qed.

(** *** Submissions and their answers *)

Lemma sent_fields t p ix batch st u :
  _get_vt_api_url (api_type p) = Ok u ->
  results (sent t p ix batch st) = results st
  /\ verbosity (sent t p ix batch st) = verbosity st
  /\ requests (sent t p ix batch st) =
     requests st ++ [(String.concat (batch_delimiter p) batch, p)].
Proof.
  intros Hu. unfold sent, bind, _print_status, _vt_submit_request. rewrite Hu.
  by destruct (2 <=? verbosity st).
Qed.

(** A due submission whose response yields a pair: the pair is handled on
    the instance that sent the request, and the loop goes on with an empty
    batch. *)
Lemma flush_if_due_sent t p n cnt ix bs st u body code :
  _get_vt_api_url (api_type p) = Ok u ->
  flush_due p n cnt (obs_batch bs) = true ->
  service_answer
    (http_exchange (length (requests st))
       (String.concat (batch_delimiter p) (obs_batch bs)) p) = Ok (body, code) ->
  flush_if_due t p n cnt ix bs st =
  bind (if negb (code =? 200) then
          record_failures t (failure_status code)
            (String.concat (batch_delimiter p) (obs_batch bs)) code body
            (source_row_index bs) (obs_batch bs)
        else
          _parse_vt_results body
            (String.concat (batch_delimiter p) (obs_batch bs)) t ix
            (Some (source_row_index bs)) (Some p))
       (fun _ => ret (emptied bs))
       (sent t p ix (obs_batch bs) st).
Proof.
  intros Hu Hdue Hx. unfold flush_if_due, sent. rewrite Hdue.
  unfold bind at 1 2 5, _print_status, _vt_submit_request. rewrite Hu.
  destruct (2 <=? verbosity st); simpl; by rewrite Hx.
Qed.

(** A due submission whose response cannot be turned into a pair: the
    exception leaves the method. *)
Lemma flush_if_due_no_answer t p n cnt ix bs st u e :
  _get_vt_api_url (api_type p) = Ok u ->
  flush_due p n cnt (obs_batch bs) = true ->
  service_answer
    (http_exchange (length (requests st))
       (String.concat (batch_delimiter p) (obs_batch bs)) p) = Raise e ->
  flush_if_due t p n cnt ix bs st = (Raise e, sent t p ix (obs_batch bs) st).
Proof.
  intros Hu Hdue Hx. unfold flush_if_due, sent. rewrite Hdue.
  unfold bind, _print_status, _vt_submit_request. rewrite Hu.
  destruct (2 <=? verbosity st); simpl; by rewrite Hx.
Qed.

Lemma unexpected_shape_none body p :
  unexpected_shape body p <-> results_to_parse body p = None.
Proof.
  unfold unexpected_shape, results_to_parse.
  destruct body as [| | | |l|d]; destruct p as [q|]; simpl; try done.
  destruct (Z.ltb_spec 1 (batch_size q)) as [Hlt|Hle]; split; try done.
  - intros Hall. specialize (Hall q eq_refl). lia.
  - intros _ ? [= <-]. lia.
Qed.

Lemma parse_vt_results_malformed v obs t ix m p st :
  results_to_parse (decode v) p = None ->
  _parse_vt_results v obs t ix m p st =
  (Ok tt, (_print_status (parse_error_message obs t ix) 1 st).2).
Proof.
  intros H. unfold _parse_vt_results. rewrite H.
  unfold bind, _print_status. by destruct (1 <=? verbosity st).
Qed.

(** The loop over a failed batch stops at its first observable: the row
    that is built for it cannot be appended. *)
Lemma record_failures_raises t s sub code body m o rest st :
  is_Some (m !! o) ->
  record_failures t s sub code body m (o :: rest) st =
  (Raise (append_error pandas), st).
Proof.
  intros [ixo Ho]. simpl. unfold bind at 1, lift, map_getitem. by rewrite Ho.
Qed.

(** The loop over the rows that follow a first part of the frame. *)
Lemma lookup_ioc_type_from t p c rows1 rows2 st0 bs st :
  type_params t = Some p ->
  iter_rows t p c (length (rows1 ++ rows2)) 1 rows1 initial_batch st0
    = (Ok bs, st) ->
  _lookup_ioc_type (rows1 ++ rows2) t c st0 =
  bind (iter_rows t p c (length (rows1 ++ rows2)) (S (length rows1)) rows2 bs)
       (fun _ => ret tt) st.
Proof.
  intros Hp Hrun. unfold _lookup_ioc_type. rewrite Hp.
  unfold bind at 1. rewrite iter_rows_app. unfold bind at 1.
  by rewrite Hrun.
Qed.

(** C7, as the code has it: when the response to a submitted batch is
    handed on with the status code 200 and a body that is neither a single
    object nor (for a type submitted in batches) a list, the parsing error
    is handed to the status log, which records it when the verbosity of
    the instance is 1 or more and not otherwise; no row at all is added to
    the results, and the loop goes on with the next row and an empty
    batch. *)
Theorem malformed_response_dropped t p c cnt n row rest bs st ix bs1 st1 body :
  type_params t = Some p ->
  add_row t c row bs st = (Ok (ix, bs1), st1) ->
  flush_due p n cnt (obs_batch bs1) = true ->
  let obs_submit := String.concat (batch_delimiter p) (obs_batch bs1) in
  service_answer (http_exchange (length (requests st1)) obs_submit p)
    = Ok (body, 200) ->
  unexpected_shape (decode body) (Some p) ->
  let st_sent := sent t p ix (obs_batch bs1) st1 in
  let st2 := (_print_status (parse_error_message obs_submit t ix) 1 st_sent).2 in
  _parse_vt_results body obs_submit t ix (Some (source_row_index bs1)) (Some p)
    st_sent = (Ok tt, st2)
  /\ results st2 = results st1
  /\ log st2 =
     (if 1 <=? verbosity st1
      then log st_sent ++ [parse_error_message obs_submit t ix]
      else log st_sent)
  /\ loop_body t p c cnt n row bs st = (Ok (emptied bs1), st2)
  /\ iter_rows t p c cnt n (row :: rest) bs st =
     iter_rows t p c cnt (S n) rest (emptied bs1) st2.
Proof.
  intros Hp Hadd Hdue obs_submit Hx Hbad st_sent st2.
  destruct (type_params_url t p Hp) as [u Hu].
  assert (Hnone : results_to_parse (decode body) (Some p) = None)
    by (by apply unexpected_shape_none).
  pose proof (parse_vt_results_malformed body obs_submit t ix
                (Some (source_row_index bs1)) (Some p) st_sent Hnone) as Hparse.
  fold st2 in Hparse.
  destruct (sent_fields t p ix (obs_batch bs1) st1 u Hu) as (Hres & Hverb & _).
  fold st_sent in Hres, Hverb.
  assert (Hbody : loop_body t p c cnt n row bs st = (Ok (emptied bs1), st2)).
  { unfold loop_body, bind at 1. rewrite Hadd. simpl.
    rewrite (flush_if_due_sent _ _ _ _ _ _ _ _ _ _ Hu Hdue Hx). simpl.
    unfold bind. fold obs_submit st_sent. by rewrite Hparse. }
  repeat split; try done.
  - subst st2. unfold _print_status.
    by destruct (1 <=? verbosity st_sent).
  - subst st2. unfold _print_status. rewrite Hverb.
    by destruct (1 <=? verbosity st1).
  - simpl. unfold bind at 1. by rewrite Hbody.
Qed.

(** X22: a 2xx response whose body is no JSON never reaches the parser,
    because [_vt_submit_request] decodes such a response without a guard:
    the [JSONDecodeError] leaves the method and the loop at the row that
    submitted the batch, with the instance as the request left it, so no
    row is added for the batch and the rows after it are not looked at. *)
Theorem undecodable_success_body_aborts t p c rows1 row rest st0 bs st ix bs1 st1 :
  type_params t = Some p ->
  let frame := rows1 ++ row :: rest in
  let cnt := length frame in
  let n := S (length rows1) in
  iter_rows t p c cnt 1 rows1 initial_batch st0 = (Ok bs, st) ->
  add_row t c row bs st = (Ok (ix, bs1), st1) ->
  flush_due p n cnt (obs_batch bs1) = true ->
  let response :=
    http_exchange (length (requests st1))
      (String.concat (batch_delimiter p) (obs_batch bs1)) p in
  is_success response = true -> response_json response = None ->
  _lookup_ioc_type frame t c st0 =
  (Raise JSONDecodeError, sent t p ix (obs_batch bs1) st1).
Proof.
  intros Hp frame cnt n Hrun Hadd Hdue response Hok Hjson.
  destruct (type_params_url t p Hp) as [u Hu].
  subst frame.
  rewrite (lookup_ioc_type_from t p c rows1 (row :: rest) st0 bs st Hp Hrun).
  cbn [iter_rows]. unfold bind, loop_body, bind. fold cnt n.
  rewrite Hadd. cbn [fst snd].
  rewrite (flush_if_due_no_answer t p n cnt ix bs1 st1 u JSONDecodeError Hu Hdue);
    [done|].
  fold response. unfold service_answer. by rewrite Hok, Hjson.
Qed.

(** C4 against the code: when the response to a submitted batch is handed
    on with a status code other than 200, the row built for the first
    observable of the batch cannot be appended, because no pandas carries
    out [results.append] on this frame.  The exception leaves the loop: no
    row is added for any observable of the batch, the rows after the
    batch are not looked at, and the lookup ends with the instance as the
    submission left it. *)
Theorem failed_submission_raises t p c rows1 row rest st0 bs st ix bs1 st1
    body code :
  type_params t = Some p ->
  let frame := rows1 ++ row :: rest in
  let cnt := length frame in
  let n := S (length rows1) in
  iter_rows t p c cnt 1 rows1 initial_batch st0 = (Ok bs, st) ->
  add_row t c row bs st = (Ok (ix, bs1), st1) ->
  flush_due p n cnt (obs_batch bs1) = true ->
  service_answer
    (http_exchange (length (requests st1))
       (String.concat (batch_delimiter p) (obs_batch bs1)) p) = Ok (body, code) ->
  code <> 200 ->
  let st2 := sent t p ix (obs_batch bs1) st1 in
  loop_body t p c cnt n row bs st = (Raise (append_error pandas), st2)
  /\ results st2 = results st1
  /\ _lookup_ioc_type frame t c st0 = (Raise (append_error pandas), st2).
Proof.
  intros Hp frame cnt n Hrun Hadd Hdue Hx Hcode st2.
  destruct (type_params_url t p Hp) as [u Hu].
  assert (Hsize : 1 <= batch_size p).
  { destruct (type_params_batch_size t p Hp) as [-> | ->]; lia. }
  assert (Hinv : batch_inv p bs).
  { eapply iter_rows_inv; [done|by apply initial_batch_inv|exact Hrun]. }
  destruct (add_row_inv p t c row bs st ix bs1 st1 Hinv Hadd) as [Hkeys _].
  destruct (sent_fields t p ix (obs_batch bs1) st1 u Hu) as (Hsent & _ & _).
  assert (Hbody : loop_body t p c cnt n row bs st
                  = (Raise (append_error pandas), st2)).
  { unfold loop_body, bind at 1. rewrite Hadd. cbn [fst snd].
    rewrite (flush_if_due_sent _ _ _ _ _ _ _ _ _ _ Hu Hdue Hx).
    destruct (Z.eqb_spec code 200) as [|_]; [done|]. cbn [negb].
    apply flush_due_spec in Hdue as [Hne _].
    destruct (obs_batch bs1) as [|o batch] eqn:Hb; [done|].
    apply Forall_cons in Hkeys as [Ho _].
    unfold bind. fold st2.
    by rewrite (record_failures_raises _ _ _ _ _ _ o batch st2 Ho). }
  split; [exact Hbody|]. split; [exact Hsent|].
  subst frame.
  rewrite (lookup_ioc_type_from t p c rows1 (row :: rest) st0 bs st Hp Hrun).
  cbn [iter_rows]. unfold bind. fold cnt n. by rewrite Hbody.
Qed.

(** *** The claims on the accumulator and the entry point *)

(** C8: success parsing, duplicate cloning, invalid-input recording and
    failure recording, and with them validation, the batch loop and the
    single-observable entry point, only append to the results: whatever
    they do, and whether they return or raise, every row that was there
    is still there, unchanged and at its position, and the number of rows
    has not decreased. *)
Theorem results_only_appended :
  (forall v obs t ix m p st,
     rows_kept (results st) (results (_parse_vt_results v obs t ix m p st).2))
  /\ (forall obs t ix st,
     rows_kept (results st) (results (_check_duplicate_submission obs t ix st).2))
  /\ (forall obs t s ix st,
     rows_kept (results st) (results (_add_invalid_input_result obs t s ix st).2))
  /\ (forall t s sub code body m batch st,
     rows_kept (results st)
       (results (record_failures t s sub code body m batch st).2))
  /\ (forall obs t ix st,
     rows_kept (results st) (results (_validate_observable obs t ix st).2))
  /\ (forall frame t c st,
     rows_kept (results st) (results (_lookup_ioc_type frame t c st).2))
  /\ (forall obs t out st,
     rows_kept (results st) (results (lookup_ioc obs t out st).2)).
Proof.
  repeat apply conj; intros; apply prefix_rows_kept.
  - apply appends_parse_vt_results.
  - apply appends_check_duplicate.
  - apply appends_add_invalid.
  - apply appends_record_failures.
  - apply appends_validate.
  - apply appends_lookup_ioc_type.
  - apply appends_lookup_ioc.
Qed.

(** C9: a call of [lookup_ioc] with the dictionary output returns the rows
    of the whole results frame of the instance, the rows that were there
    before the call first and unchanged: one row alone comes back as a
    bare dictionary, anything else as the list of all rows. *)
Theorem lookup_ioc_returns_all_rows obs t st out st' :
  lookup_ioc obs t "dict" st = (Ok out, st') ->
  output_rows out = results st'
  /\ rows_kept (results st) (output_rows out)
  /\ (forall r, results st' = [r] -> out = OneDict r)
  /\ (length (results st') <> 1%nat -> out = DictList (results st')).
Proof.
  intros Hrun.
  pose proof (appends_lookup_ioc obs t "dict" st) as Hpre.
  rewrite Hrun in Hpre. simpl in Hpre.
  assert (Hout : out = match results st' with
                       | [r] => OneDict r
                       | rs => DictList rs
                       end).
  { unfold lookup_ioc in Hrun.
    destruct obs as [o|]; [|discriminate]. destruct t as [t|]; [|discriminate].
    destruct (observable (preprocess_observable o t)); [|discriminate].
    destruct (assoc t _VT_TYPE_MAP) as [vt|]; [|discriminate].
    destruct (assoc vt _VT_API_TYPES) as [p|]; [|discriminate].
    unfold bind in Hrun.
    destruct (_vt_submit_request s p st) as [[a|e] s1]; [|discriminate].
    destruct (_parse_vt_results a.1 s t (VInt 0) None None s1) as [[[]|e] s2];
      [|discriminate].
    simpl in Hrun.
    destruct (results s2) as [|r [|r' rs]] eqn:E; simplify_eq; by rewrite E. }
  assert (Hrows : output_rows out = results st').
  { rewrite Hout. by destruct (results st') as [|r [|r' rs]]. }
  repeat split.
  - done.
  - rewrite Hrows. by apply prefix_rows_kept.
  - rewrite Hrows. by apply prefix_rows_kept.
  - intros r Hr. by rewrite Hout, Hr.
  - intros Hlen. rewrite Hout.
    by destruct (results st') as [|r [|r' rs]].
Qed.

(** *** The cells of a URL or file report *)

(** For the types that [_parse_single_result] names, the scalar cells are
    read from the fields of the element. *)
Lemma parse_single_scalar_cells (d : list (string * value)) (t : string) :
  t = "url" \/ t = "md5_hash" \/ t = "sha1_hash" \/ t = "sha256_hash" ->
  exists row,
    _parse_single_result (VDict d) t = Ok row
    /\ ResponseCode row = default VNone (dict_get "response_code" d)
    /\ VerboseMsg row = default VNone (dict_get "verbose_msg" d)
    /\ ScanId row = default VNone (dict_get "scan_id" d)
    /\ Resource row = default VNone (dict_get "resource" d)
    /\ Permalink row = default VNone (dict_get "permalink" d)
    /\ Positives row = default VNone (dict_get "positives" d)
    /\ (t <> "url" ->
        MD5 row = default VNone (dict_get "md5" d)
        /\ SHA1 row = default VNone (dict_get "sha1" d)
        /\ SHA256 row = default VNone (dict_get "sha256" d)).
Proof.
  intros [-> | [-> | [-> | ->]]]; eexists; (split; [reflexivity|]); simpl;
    repeat split; done.
Qed.

(** C5 at the third supported hash type: the registry spells it
    [sh256_hash], [_parse_single_result] tests for [sha256_hash], so for a
    [sh256_hash] observable no cell at all is read from the element; and
    [sha256_hash] is not a type that the registry knows. *)
Theorem sh256_hash_cells_not_extracted (d : list (string * value)) :
  In "sh256_hash" _SUPPORTED_INPUT_TYPES
  /\ type_params "sh256_hash" = type_params "md5_hash"
  /\ type_params "sha256_hash" = None
  /\ _parse_single_result (VDict d) "sh256_hash" =
     Ok (mkResultRow VNone VNone VNone VNone VNone VNone VNone VNone VNone
           VNone VNone VNone VNone VNone VNone VNone VNone).
Proof.
  repeat split; try reflexivity. simpl. tauto.
Qed.

(** *** The duplicate check *)

Lemma cell_is_true (c : value) (s : string) : cell_is c s = true <-> c = VStr s.
Proof.
  destruct c; simpl; try (split; [discriminate|congruence]).
  rewrite String.eqb_eq. split; congruence.
Qed.

Lemma set_Observable_same (o : string) (r : ResultRow) :
  cell_is (Observable r) o = true -> set_Observable (VStr o) r = r.
Proof. intros H%cell_is_true. destruct r; simpl in *. by subst. Qed.

Lemma same_observable_fix (o : string) (rs : list ResultRow) :
  map (set_Observable (VStr o)) (same_observable o rs) = same_observable o rs.
Proof.
  unfold same_observable. induction rs as [|r rs IH]; [done|].
  rewrite filter_cons. destruct (decide (cell_is (Observable r) o)) as [H|H].
  - simpl. rewrite IH. f_equal. apply set_Observable_same.
    by apply Is_true_true.
  - done.
Qed.

Lemma same_observable_clones (o : string) (ix : value) (rs : list ResultRow) :
  map (fun r => set_Status (VStr "Duplicate") (set_SourceIndex ix r))
      (same_observable o rs)
  = map (duplicate_clone o ix) (same_observable o rs).
Proof.
  rewrite <- (same_observable_fix o rs) at 1. by rewrite map_map.
Qed.

Lemma same_observable_nonempty (o : string) (rs : list ResultRow) :
  same_observable o rs <> [] <-> exists r, r ∈ rs /\ Observable r = VStr o.
Proof.
  split.
  - destruct (same_observable o rs) as [|r same] eqn:Hs; [done|].
    intros _. assert (r ∈ same_observable o rs) as Hr
      by (rewrite Hs; apply list_elem_of_here).
    apply list_elem_of_filter in Hr as [Hc Hin].
    exists r. split; [done|]. apply cell_is_true. by apply Is_true_true.
  - intros (r & Hin & Hc) Hnil.
    assert (r ∈ same_observable o rs) as Hr.
    { apply list_elem_of_filter. split; [|done].
      apply Is_true_true. by apply cell_is_true. }
    rewrite Hnil in Hr. by apply not_elem_of_nil in Hr.
Qed.

Lemma same_hash_nonempty (o : string) (rs : list ResultRow) :
  same_hash o rs <> [] <->
  exists r, r ∈ rs /\ (MD5 r = VStr o \/ SHA1 r = VStr o \/ SHA256 r = VStr o).
Proof.
  split.
  - destruct (same_hash o rs) as [|r same] eqn:Hs; [done|].
    intros _. assert (r ∈ same_hash o rs) as Hr
      by (rewrite Hs; apply list_elem_of_here).
    apply list_elem_of_filter in Hr as [Hc Hin].
    exists r. split; [done|]. apply Is_true_true in Hc.
    rewrite !orb_true_iff, !cell_is_true in Hc.
    destruct Hc as [[H|H]|H]; auto.
  - intros (r & Hin & Hc) Hnil.
    assert (r ∈ same_hash o rs) as Hr.
    { apply list_elem_of_filter. split; [|done].
      apply Is_true_true. rewrite !orb_true_iff, !cell_is_true.
      destruct Hc as [H|[H|H]]; auto. }
    rewrite Hnil in Hr. by apply not_elem_of_nil in Hr.
Qed.

(** For a type that is no hash, the Observable column alone is looked at. *)
Lemma find_duplicates_plain (rs : list ResultRow) (o t : string) :
  str_in t hash_types = false ->
  find_duplicates rs o t = Ok (same_observable o rs).
Proof.
  intros Ht. unfold find_duplicates. rewrite Ht. by rewrite andb_false_r.
Qed.

(** For a hash the query is reached when no Observable is the value. *)
Lemma find_duplicates_hash (rs : list ResultRow) (o t : string) :
  str_in t hash_types = true ->
  same_observable o rs <> [] \/ query_error pandas = None ->
  find_duplicates rs o t = Ok (map (set_Observable (VStr o)) (matched_rows o rs)).
Proof.
  intros Ht Hcan. unfold find_duplicates, matched_rows, frame_query. rewrite Ht.
  fold (same_observable o rs) (same_hash o rs).
  destruct (same_observable o rs) as [|r same] eqn:Hsame.
  - destruct Hcan as [|Hq]; [done|]. rewrite Hq. simpl.
    by destruct (same_hash o rs).
  - cbn [length Nat.eqb andb]. rewrite <- Hsame.
    by rewrite same_observable_fix.
Qed.

Lemma find_duplicates_refused (rs : list ResultRow) (o t : string) (e : exn) :
  str_in t hash_types = true ->
  same_observable o rs = [] ->
  query_error pandas = Some e ->
  find_duplicates rs o t = Raise e.
Proof.
  intros Ht Hsame Hq. unfold find_duplicates, frame_query.
  fold (same_observable o rs). by rewrite Ht, Hsame, Hq.
Qed.

Lemma check_duplicate_found o t ix st :
  str_in t hash_types = true ->
  same_observable o (results st) <> [] \/ query_error pandas = None ->
  matched_rows o (results st) <> [] ->
  _check_duplicate_submission o t ix st =
  (Ok (mkDuplicateStatus true
         ("Duplicates of "
          +:+ fmt (VList (map SourceIndex (matched_rows o (results st)))))),
   set_results
     (results st ++ map (duplicate_clone o ix) (matched_rows o (results st))) st).
Proof.
  intros Ht Hcan Hne. unfold _check_duplicate_submission.
  rewrite (find_duplicates_hash _ _ _ Ht Hcan).
  rewrite !length_map.
  destruct (matched_rows o (results st)) as [|r rs] eqn:Hm; [done|].
  cbn [length Nat.ltb Nat.leb].
  rewrite <- Hm. rewrite !map_map.
  replace (map (fun x => SourceIndex (set_Observable (VStr o) x))
             (matched_rows o (results st)))
    with (map SourceIndex (matched_rows o (results st)))
    by (apply map_ext; by intros []).
  done.
Qed.

Lemma check_duplicate_none o t ix st :
  find_duplicates (results st) o t = Ok [] ->
  _check_duplicate_submission o t ix st = (Ok (mkDuplicateStatus false "ok"), st).
Proof. intros H. unfold _check_duplicate_submission. by rewrite H. Qed.

Lemma check_duplicate_refused o t ix st e :
  find_duplicates (results st) o t = Raise e ->
  _check_duplicate_submission o t ix st = (Raise e, st).
Proof. intros H. unfold _check_duplicate_submission. by rewrite H. Qed.

Lemma matched_rows_nonempty (o : string) (rs : list ResultRow) (r : ResultRow) :
  r ∈ rs ->
  Observable r = VStr o \/ MD5 r = VStr o \/ SHA1 r = VStr o \/ SHA256 r = VStr o ->
  matched_rows o rs <> [].
Proof.
  intros Hin Hcell. unfold matched_rows.
  destruct (same_observable o rs) as [|r' same] eqn:Hsame; [|done].
  apply same_hash_nonempty. exists r. split; [done|].
  destruct Hcell as [H|H]; [|done].
  assert (same_observable o rs <> []) as Hne
    by (apply same_observable_nonempty; eauto).
  by rewrite Hsame in Hne.
Qed.

(** A row whose value the sanitizer accepts and the check finds in the
    results leaves the batch as it is, and no request is sent for it. *)
Lemma add_row_duplicate t c row bs st o :
  str_in t hash_types = true ->
  row_observable row = Some o ->
  is_Some (observable (preprocess_observable o t)) ->
  same_observable o (results st) <> [] \/ query_error pandas = None ->
  matched_rows o (results st) <> [] ->
  exists st',
    add_row t c row bs st = (Ok (row_index c row, bs), st')
    /\ requests st' = requests st
    /\ results st' =
       results st
       ++ map (duplicate_clone o (row_index c row)) (matched_rows o (results st)).
Proof.
  intros Ht Hobs [q Hpp] Hcan Hne.
  assert (exists st',
            add_row t c row bs st = (Ok (row_index c row, bs), st')
            /\ results st' =
               results st
               ++ map (duplicate_clone o (row_index c row))
                    (matched_rows o (results st))) as (st' & Hrun & Hres).
  { unfold add_row, bind at 1, _validate_observable. rewrite Hobs, Hpp.
    unfold bind at 1.
    rewrite (check_duplicate_found o t _ st Ht Hcan Hne).
    cbn [is_dup dup_status].
    unfold bind, _print_status, ret.
    destruct (2 <=? verbosity _); simpl; eexists; split; done. }
  exists st'. split; [done|]. split; [|done].
  pose proof (silent_add_row t c row bs st) as Hsil.
  by rewrite Hrun in Hsil.
Qed.

(** C2, as the code has it: when the very literal of a hash-type
    observable is the Observable of a row of the results, or, where the
    frame query evaluates, the MD5, SHA1 or SHA256 of one, the check
    appends for every matching row a copy with Status "Duplicate", the new
    row's index as SourceIndex and the submitted value as Observable, and
    reports the SourceIndex values of the matched rows; a row with that
    literal which the sanitizer accepts is not added to the batch and no
    request is sent for it.  When no row holds the very literal in any of
    the four columns, whatever else they hold, nothing is reported as a
    duplicate and nothing is added to the results. *)
Theorem duplicate_of_exact_value o t ix st :
  str_in t hash_types = true ->
  let matched := matched_rows o (results st) in
  let by_observable := exists r, r ∈ results st /\ Observable r = VStr o in
  let by_hash :=
    exists r, r ∈ results st
      /\ (MD5 r = VStr o \/ SHA1 r = VStr o \/ SHA256 r = VStr o) in
  (by_observable \/ (query_error pandas = None /\ by_hash) ->
   matched <> []
   /\ _check_duplicate_submission o t ix st =
      (Ok (mkDuplicateStatus true
             ("Duplicates of " +:+ fmt (VList (map SourceIndex matched)))),
       set_results (results st ++ map (duplicate_clone o ix) matched) st)
   /\ (forall r, r ∈ matched ->
       let r' := duplicate_clone o ix r in
       Status r' = VStr "Duplicate" /\ SourceIndex r' = ix
       /\ Observable r' = VStr o
       /\ set_Status (Status r) (set_SourceIndex (SourceIndex r)
            (set_Observable (Observable r) r')) = r)
   /\ (forall c row bs,
       row_observable row = Some o -> row_index c row = ix ->
       is_Some (observable (preprocess_observable o t)) ->
       exists st',
         add_row t c row bs st = (Ok (ix, bs), st')
         /\ requests st' = requests st
         /\ results st' = results st ++ map (duplicate_clone o ix) matched))
  /\ (~ by_observable -> ~ by_hash ->
      results (_check_duplicate_submission o t ix st).2 = results st
      /\ forall d st',
           _check_duplicate_submission o t ix st = (Ok d, st') ->
           d = mkDuplicateStatus false "ok" /\ st' = st).
Proof.
  intros Ht matched by_observable by_hash. split.
  - intros Hfound.
    assert (Hcan : same_observable o (results st) <> []
                   \/ query_error pandas = None).
    { destruct Hfound as [H|[H _]]; [left|by right].
      by apply same_observable_nonempty. }
    assert (Hne : matched <> []).
    { destruct Hfound as [(r & Hin & Hr)|[_ (r & Hin & Hr)]];
        apply (matched_rows_nonempty o (results st) r Hin); [by left|by right]. }
    split; [done|]. split; [by apply check_duplicate_found|]. split.
    + intros r0 _. by destruct r0.
    + intros c row bs Hobs <- Hpp. by apply add_row_duplicate.
  - intros Hno_obs Hno_hash.
    assert (Hsame : same_observable o (results st) = []).
    { destruct (same_observable o (results st)) eqn:E; [done|].
      destruct Hno_obs. apply same_observable_nonempty. by rewrite E. }
    assert (Hhash : same_hash o (results st) = []).
    { destruct (same_hash o (results st)) eqn:E; [done|].
      destruct Hno_hash. apply same_hash_nonempty. by rewrite E. }
    destruct (query_error pandas) as [e|] eqn:Hq.
    + rewrite (check_duplicate_refused o t ix st e)
        by (by apply find_duplicates_refused).
      split; [done|]. intros d st' [=].
    + rewrite (check_duplicate_none o t ix st).
      * split; [done|]. by intros d st' [= <- <-].
      * rewrite find_duplicates_hash by auto.
        unfold matched_rows. by rewrite Hsame, Hhash.
Qed.

(** *** One literal twice in a batch *)

Lemma batched_types_are_hashes t p :
  type_params t = Some p -> 1 < batch_size p ->
  str_in t hash_types = true /\ batch_delimiter p = "," /\ batch_size p = 25.
Proof.
  unfold type_params. simpl.
  repeat match goal with
         | |- context [String.eqb t ?s] =>
             destruct (String.eqb_spec t s) as [->|_];
             [simpl; intros [= <-]; simpl; intros;
              first [lia | (split; [done|split; [done|lia]])]|]
         end.
  discriminate.
Qed.


(** A valid row that has no earlier result is added to the batch, and the
    results stay as they are. *)
Lemma add_row_fresh t c row bs st o q :
  row_observable row = Some o ->
  observable (preprocess_observable o t) = Some q -> q <> "" ->
  find_duplicates (results st) o t = Ok [] ->
  add_row t c row bs st =
  (Ok (row_index c row,
       mkBatchState (<[q := row_index c row]> (source_row_index bs))
         (obs_batch bs ++ [q]) (batch_index bs + 1)), st).
Proof.
  intros Hobs Hpp Hq Hfresh.
  unfold add_row, bind at 1, _validate_observable. rewrite Hobs, Hpp.
  unfold bind at 1. rewrite (check_duplicate_none _ _ _ _ Hfresh).
  cbn [is_dup]. unfold ret. rewrite Hpp.
  by destruct (String.eqb_spec q "").
Qed.

(** A valid row whose duplicate check raises ends the loop. *)
Lemma add_row_refused t c row bs st o q e :
  row_observable row = Some o ->
  observable (preprocess_observable o t) = Some q ->
  find_duplicates (results st) o t = Raise e ->
  add_row t c row bs st = (Raise e, st).
Proof.
  intros Hobs Hpp Hraise.
  unfold add_row, bind at 1, _validate_observable. rewrite Hobs, Hpp.
  unfold bind at 1. by rewrite (check_duplicate_refused _ _ _ _ _ Hraise).
Qed.

(** C10 against the code: two rows of a type submitted in batches carry
    the same valid literal, none of whose results is in the frame yet, and
    the first of them neither fills the batch nor ends the slice.  Where
    the frame query of the duplicate check evaluates, neither row is
    recorded as a duplicate: the results stay as they are, the literal is
    in the batch twice and so twice in the string submitted, and the map
    holds the index of the second row alone for it.  Where the query is
    refused, the check of the first row raises: nothing is put in the
    batch and the loop ends there. *)
Theorem repeated_literal_in_one_batch t p c cnt n row1 row2 bs st o q :
  type_params t = Some p -> 1 < batch_size p ->
  row_observable row1 = Some o -> row_observable row2 = Some o ->
  observable (preprocess_observable o t) = Some q -> q <> "" ->
  matched_rows o (results st) = [] ->
  Z.of_nat (length (obs_batch bs)) + 1 < batch_size p -> n <> cnt ->
  let ix1 := row_index c row1 in
  let ix2 := row_index c row2 in
  let bs1 := mkBatchState (<[q := ix1]> (source_row_index bs))
               (obs_batch bs ++ [q]) (batch_index bs + 1) in
  let bs2 := mkBatchState (<[q := ix2]> (source_row_index bs1))
               (obs_batch bs ++ [q; q]) (batch_index bs + 1 + 1) in
  (query_error pandas = None ->
   loop_body t p c cnt n row1 bs st = (Ok bs1, st)
   /\ add_row t c row2 bs1 st = (Ok (ix2, bs2), st)
   /\ source_row_index bs2 !! q = Some ix2
   /\ (forall k, source_row_index bs2 !! k = Some ix1 -> ix1 <> ix2 ->
       k <> q /\ source_row_index bs !! k = Some ix1)
   /\ (flush_due p (S n) cnt (obs_batch bs2) = true ->
       requests (flush_if_due t p (S n) cnt ix2 bs2 st).2 =
       requests st ++ [(String.concat "," (obs_batch bs ++ [q; q]), p)]))
  /\ (forall e, query_error pandas = Some e ->
      loop_body t p c cnt n row1 bs st = (Raise e, st)
      /\ forall rest,
           iter_rows t p c cnt n (row1 :: row2 :: rest) bs st = (Raise e, st)).
Proof.
  intros Hp Hbig Ho1 Ho2 Hpp Hq Hnone Hroom Hlast ix1 ix2 bs1 bs2.
  destruct (batched_types_are_hashes t p Hp Hbig) as (Ht & Hdelim & _).
  destruct (type_params_url t p Hp) as [u Hu].
  assert (Hsame : same_observable o (results st) = []).
  { unfold matched_rows in Hnone.
    by destruct (same_observable o (results st)). }
  split.
  - intros Hquery.
    assert (Hfresh : find_duplicates (results st) o t = Ok []).
    { rewrite (find_duplicates_hash (results st) o t Ht) by auto.
      by rewrite Hnone. }
    assert (Hadd1 : add_row t c row1 bs st = (Ok (ix1, bs1), st))
      by (by apply (add_row_fresh t c row1 bs st o q)).
    assert (Hadd2 : add_row t c row2 bs1 st = (Ok (ix2, bs2), st)).
    { rewrite (add_row_fresh t c row2 bs1 st o q Ho2 Hpp Hq Hfresh).
      subst bs2 bs1. simpl. by rewrite <- app_assoc. }
    split; [|split; [exact Hadd2|split; [|split]]].
    + unfold loop_body, bind. rewrite Hadd1. cbn [fst snd].
      unfold flush_if_due. subst bs1. cbn [obs_batch].
      assert (flush_due p n cnt (obs_batch bs ++ [q]) = false) as ->; [|done].
      apply not_true_is_false. intros [_ [Hfull|Heq]]%flush_due_spec; [|done].
      rewrite length_app in Hfull. simpl in Hfull. lia.
    + subst bs2. simpl. by rewrite lookup_insert_eq.
    + intros k Hk Hdiff. subst bs2 bs1. simpl in Hk.
      destruct (decide (q = k)) as [->|Hne].
      * rewrite lookup_insert_eq in Hk. congruence.
      * split; [congruence|]. by rewrite !lookup_insert_ne in Hk.
    + intros Hdue. rewrite (flush_if_due_requests _ _ _ _ _ _ _ u Hu).
      by rewrite Hdue, Hdelim.
  - intros e Hquery.
    assert (Hraise : find_duplicates (results st) o t = Raise e)
      by (by apply find_duplicates_refused).
    assert (Hbody : loop_body t p c cnt n row1 bs st = (Raise e, st)).
    { unfold loop_body, bind.
      by rewrite (add_row_refused t c row1 bs st o q e Ho1 Hpp Hraise). }
    split; [exact Hbody|]. intros rest. cbn [iter_rows]. unfold bind.
    by rewrite Hbody.
Qed.

(** *** Correlating the elements of a batch response *)

(** A run of the element loop that returns has added one row per element,
    each the row that [correlate] gives for the element at its position. *)
Lemma parse_elements_rows n obs t ix m observables i elems st st' :
  parse_elements n obs t ix m observables i elems st = (Ok tt, st') ->
  exists rows,
    results st' = results st ++ rows
    /\ length rows = length elems
    /\ forall k e, elems !! k = Some e ->
       exists row0 row,
         rows !! k = Some row
         /\ _parse_single_result e t = Ok row0
         /\ correlate n obs ix m observables (i + k) e
              (set_RawResponse (VStr (json_dumps e))
                 (set_Status (VStr "Success") (set_IoCType (VStr t) row0)))
            = Ok row.
Proof.
  revert i st. induction elems as [|e rest IH]; intros i st; simpl.
  - intros [= <-]. exists []. rewrite app_nil_r. repeat split; try done.
  - unfold bind at 1, lift.
    destruct (_parse_single_result e t) as [row0|err] eqn:Hsingle;
      [|discriminate].
    unfold bind at 1.
    destruct (correlate n obs ix m observables i e _) as [row|err] eqn:Hcor;
      [|discriminate].
    unfold bind at 1, append_results. intros Hrest.
    apply IH in Hrest as (rows & Hres & Hlen & Hrows).
    exists (row :: rows). simpl in Hres. rewrite <- app_assoc in Hres.
    split; [done|]. split; [simpl; by rewrite Hlen|].
    intros [|k] e' He'; simpl in He'.
    + injection He' as <-. exists row0, row. rewrite Nat.add_0_r. done.
    + destruct (Hrows k e' He') as (r0 & r & Hk & Hs & Hc).
      exists r0, r. rewrite Nat.add_succ_r. done.
Qed.

(** The cells that [correlate] sets when the response has several elements
    and the map more than one entry. *)
Lemma correlate_several n obs ix m observables i e row0 row :
  n <> 1%nat -> size m <> 1%nat ->
  correlate n obs ix (Some m) observables i e row0 = Ok row ->
  (forall r, resource_field e = Some r ->
     Observable row = r
     /\ (forall s v, r = VStr s -> m !! s = Some v -> SourceIndex row = v)
     /\ ((forall s, r = VStr s -> m !! s = None) ->
         exists lit, observables !! i = Some lit
                     /\ m !! lit = Some (SourceIndex row)))
  /\ (resource_field e = None ->
      exists lit, observables !! i = Some lit
                  /\ Observable row = VStr lit
                  /\ m !! lit = Some (SourceIndex row)).
Proof.
  intros Hn Hm. unfold correlate.
  destruct (Nat.eqb_spec n 1) as [|_]; [done|].
  destruct (Nat.eqb_spec (size m) 1) as [|_]; [done|]. simpl.
  intros Hcor. apply obind_Ok in Hcor as (has & Hhas & Hcor).
  destruct has.
  - apply obind_Ok in Hcor as (r & Hr & Hcor).
    apply obind_Ok in Hcor as (k & Hk & Hcor).
    assert (Hfield : resource_field e = Some r).
    { destruct e; simpl in *; try discriminate.
      destruct (dict_get "resource" d); by simplify_eq. }
    split; [|by rewrite Hfield].
    intros r' Hr'. rewrite Hfield in Hr'. injection Hr' as <-.
    destruct (k ≫= (fun s => m !! s)) as [v|] eqn:Hkey.
    + injection Hcor as <-. split; [done|]. split.
      * intros s v' -> Hs. simpl in Hk. injection Hk as <-.
        simpl in Hkey. simpl. congruence.
      * intros Hnokey. destruct r; simpl in Hk; simplify_eq; simpl in Hkey;
          try discriminate.
        by rewrite (Hnokey s eq_refl) in Hkey.
    + apply obind_Ok in Hcor as (lit & Hlit & Hcor).
      apply obind_Ok in Hcor as (v & Hv & Hcor).
      injection Hcor as <-. split; [done|].
      unfold list_getitem in Hlit. unfold map_getitem in Hv.
      destruct (observables !! i) as [lit'|] eqn:Hi; [|discriminate].
      destruct (m !! lit) as [v'|] eqn:Hl; [|discriminate].
      simplify_eq. split.
      * intros s v' -> Hs. simpl in Hk. injection Hk as <-.
        simpl in Hkey. congruence.
      * intros _. exists lit. simpl. done.
  - apply obind_Ok in Hcor as (lit & Hlit & Hcor).
    apply obind_Ok in Hcor as (v & Hv & Hcor).
    injection Hcor as <-.
    unfold list_getitem in Hlit. unfold map_getitem in Hv.
    destruct (observables !! i) as [lit'|] eqn:Hi; [|discriminate].
    destruct (m !! lit) as [v'|] eqn:Hl; [|discriminate].
    simplify_eq. split.
    + intros r Hfield. destruct e; simpl in *; try discriminate.
      rewrite Hfield in Hhas. discriminate.
    + intros _. exists lit. simpl. done.
Qed.

Lemma parse_single_hash_returns (d : list (string * value)) (t : string) :
  str_in t hash_types = true ->
  exists row, _parse_single_result (VDict d) t = Ok row.
Proof.
  unfold str_in, hash_types. simpl.
  rewrite !orb_true_iff, !String.eqb_eq.
  intros [-> | [-> | [-> | [=]]]]; eexists; reflexivity.
Qed.

Lemma correlate_returns n obs ix m observables i e row0 lit :
  plain_element e ->
  observables !! i = Some lit -> is_Some (m !! lit) ->
  exists row, correlate n obs ix (Some m) observables i e row0 = Ok row.
Proof.
  intros (d & -> & Hres) Hlit [v Hv]. unfold correlate.
  destruct ((n =? 1)%nat || (size m =? 1)%nat); [by eexists|].
  simpl. unfold list_getitem, map_getitem.
  destruct (dict_get "resource" d) as [r|] eqn:Hr; simpl.
  - destruct (Hres r eq_refl) as [s ->]. simpl.
    destruct (m !! s); simpl; [by eexists|].
    rewrite Hlit. simpl. rewrite Hv. by eexists.
  - rewrite Hlit. simpl. rewrite Hv. by eexists.
Qed.

Lemma parse_elements_returns n obs t ix m observables i elems st :
  str_in t hash_types = true ->
  Forall plain_element elems ->
  (i + length elems <= length observables)%nat ->
  Forall (fun lit => is_Some (m !! lit)) observables ->
  exists st', parse_elements n obs t ix (Some m) observables i elems st
              = (Ok tt, st').
Proof.
  intros Ht Hplain. revert i st.
  induction Hplain as [|e rest He _ IH]; intros i st Hlen Hkeys;
    cbn [parse_elements].
  - by eexists.
  - simpl in Hlen.
    destruct He as (d & -> & Hres).
    destruct (parse_single_hash_returns d t Ht) as [row0 Hrow0].
    destruct (lookup_lt_is_Some_2 observables i) as [lit Hlit]; [lia|].
    assert (is_Some (m !! lit)) as Hin.
    { rewrite Forall_forall in Hkeys. apply Hkeys.
      by eapply list_elem_of_lookup_2. }
    unfold bind at 1, lift. rewrite Hrow0. cbv beta iota.
    unfold bind at 1. cbv beta iota.
    destruct (correlate_returns n obs ix m observables i (VDict d)
                (set_RawResponse (VStr (json_dumps (VDict d)))
                   (set_Status (VStr "Success") (set_IoCType (VStr t) row0)))
                lit) as [row Hrow]; [by exists d|done|done|].
    rewrite Hrow. unfold bind at 1, append_results. cbv beta iota.
    apply IH; [lia|done].
Qed.

Lemma parse_vt_results_list v obs t p ix m st elems :
  type_params t = Some p -> 1 < batch_size p ->
  decode v = VList elems ->
  batch_delimiter p = ","
  /\ _parse_vt_results v obs t ix m (Some p) st =
     parse_elements (length elems) obs t ix m (py_split obs ",") 0 elems st.
Proof.
  intros Hp Hbig Hv.
  destruct (batched_types_are_hashes t p Hp Hbig) as (_ & Hdelim & _).
  split; [done|].
  unfold _parse_vt_results. rewrite Hv. unfold results_to_parse.
  destruct (Z.ltb_spec 1 (batch_size p)); [|lia].
  unfold bind at 1, ret. by rewrite Hdelim.
Qed.

(** C1, as the code has it: for a batch response with more than one
    element and a map with at least two entries, the row of the element at
    position N has, when the element carries a "resource" field, that
    resource value as Observable, and as SourceIndex the map's entry for
    the resource when it is a key of the map and the entry for the Nth
    submitted literal otherwise; when the element carries no "resource"
    field, the Nth submitted literal as Observable and the map's entry for
    it as SourceIndex.  A response of plain objects, no longer than the
    list of submitted literals, all of them keys of the map, yields its
    rows. *)
Theorem batch_element_correlation v obs t p ix m st elems :
  type_params t = Some p -> 1 < batch_size p ->
  decode v = VList elems -> (1 < length elems)%nat -> (2 <= size m)%nat ->
  let run := _parse_vt_results v obs t ix (Some m) (Some p) st in
  let observables := py_split obs (batch_delimiter p) in
  (forall st', run = (Ok tt, st') ->
     exists rows,
       results st' = results st ++ rows
       /\ length rows = length elems
       /\ forall i e, elems !! i = Some e ->
          exists row,
            rows !! i = Some row
            /\ (forall r, resource_field e = Some r ->
                Observable row = r
                /\ (forall s x, r = VStr s -> m !! s = Some x ->
                    SourceIndex row = x)
                /\ ((forall s, r = VStr s -> m !! s = None) ->
                    exists lit, observables !! i = Some lit
                                /\ m !! lit = Some (SourceIndex row)))
            /\ (resource_field e = None ->
                exists lit, observables !! i = Some lit
                            /\ Observable row = VStr lit
                            /\ m !! lit = Some (SourceIndex row)))
  /\ (Forall plain_element elems ->
      (length elems <= length observables)%nat ->
      Forall (fun lit => is_Some (m !! lit)) observables ->
      exists st', run = (Ok tt, st')).
Proof.
  intros Hp Hbig Hv Hlen Hsize run observables.
  destruct (parse_vt_results_list v obs t p ix (Some m) st elems Hp Hbig Hv)
    as [Hdelim Hrun].
  destruct (batched_types_are_hashes t p Hp Hbig) as (Ht & _ & _).
  subst run observables. rewrite Hrun, Hdelim. split.
  - intros st' Hok.
    apply parse_elements_rows in Hok as (rows & Hres & Hrows & Hall).
    exists rows. split; [done|]. split; [done|].
    intros i e He. destruct (Hall i e He) as (row0 & row & Hi & _ & Hcor).
    exists row. split; [done|].
    change (0 + i)%nat with i in Hcor.
    eapply correlate_several; [|lia|exact Hcor]. lia.
  - intros Hplain Hshort Hkeys.
    by apply parse_elements_returns.
Qed.

(** *** Joining and splitting a batch *)

Lemma append_assoc_str (a b c : string) : (a +:+ b) +:+ c = a +:+ (b +:+ c).
Proof.
  induction a as [|x a IH]; [done|].
  change (String x ((a +:+ b) +:+ c) = String x (a +:+ (b +:+ c))).
  by rewrite IH.
Qed.

Lemma append_empty_r (a : string) : a +:+ "" = a.
Proof.
  induction a as [|x a IH]; [done|].
  change (String x (a +:+ "") = String x a). by rewrite IH.
Qed.

Lemma no_separator_cons (c x : ascii) (s : string) :
  is_substring (String c "") (String x s) = false ->
  x <> c /\ is_substring (String c "") s = false.
Proof.
  simpl. intros H. apply orb_false_iff in H as [Hhead Htail].
  split; [|done]. intros ->.
  destruct (ascii_dec c c); [|done]. by destruct s.
Qed.

(** An item without the separator is read through to its end. *)
Lemma split_go_item (c : ascii) (cur item tail : string) :
  is_substring (String c "") item = false ->
  split_go (String c "") 0 cur (item +:+ tail) =
  split_go (String c "") 0 (cur +:+ item) tail.
Proof.
  revert cur. induction item as [|x item IH]; intros cur Hfree.
  - simpl. by rewrite append_empty_r.
  - apply no_separator_cons in Hfree as [Hx Hfree].
    change (String x item +:+ tail) with (String x (item +:+ tail)).
    cbn [split_go String.prefix].
    destruct (ascii_dec c x) as [->|_]; [done|].
    rewrite (IH _ Hfree). f_equal.
    rewrite append_assoc_str. done.
Qed.

Lemma split_go_separator (c : ascii) (cur tail : string) :
  split_go (String c "") 0 cur (String c tail) =
  cur :: split_go (String c "") 0 "" tail.
Proof.
  cbn [split_go String.prefix]. destruct (ascii_dec c c); [|done].
  by destruct tail.
Qed.

(** The scan over a joined batch, started with [cur] already read. *)
Lemma split_go_concat (c : ascii) (cur item : string) (rest : list string) :
  Forall (fun o => is_substring (String c "") o = false) (item :: rest) ->
  split_go (String c "") 0 cur (String.concat (String c "") (item :: rest)) =
  (cur +:+ item) :: rest.
Proof.
  revert cur item. induction rest as [|item2 rest IH]; intros cur item Hfree.
  - apply Forall_cons in Hfree as [Hitem _]. simpl.
    rewrite <- (append_empty_r item) at 1. by rewrite split_go_item.
  - apply Forall_cons in Hfree as [Hitem Hrest].
    change (String.concat (String c "") (item :: item2 :: rest))
      with (item +:+ String c (String.concat (String c "") (item2 :: rest))).
    rewrite split_go_item by done. rewrite split_go_separator.
    f_equal. by rewrite IH.
Qed.

(** X1: splitting the string that joins a non-empty batch on a
    one-character delimiter gives the batch back, provided no observable
    of the batch contains the delimiter. *)
Theorem split_join_round_trip (c : ascii) (items : list string) :
  items <> [] ->
  Forall (fun o => is_substring (String c "") o = false) items ->
  py_split (String.concat (String c "") items) (String c "") = items.
Proof.
  intros Hne Hfree. destruct items as [|item rest]; [done|].
  unfold py_split. rewrite split_go_concat by done. done.
Qed.

(** *** The loop as a whole *)

Lemma loop_body_requests t p c cnt n row bs st :
  exists extra,
    requests (loop_body t p c cnt n row bs st).2 = requests st ++ extra
    /\ (length extra <= 1)%nat.
Proof.
  unfold loop_body, bind.
  pose proof (silent_add_row t c row bs st) as Hsil.
  destruct (add_row t c row bs st) as [[[ix bs1]|e] st1]; simpl in Hsil |- *.
  - rewrite flush_if_due_requests_any, Hsil.
    eexists. split; [done|]. repeat case_match; simpl; lia.
  - exists []. rewrite app_nil_r. split; [done|]. simpl. lia.
Qed.

(** X2: a run of the batch loop sends at most one request per row of the
    slice, whether it returns or raises. *)
Theorem at_most_one_request_per_row t p c cnt n rows bs st :
  exists sent_now,
    requests (iter_rows t p c cnt n rows bs st).2 = requests st ++ sent_now
    /\ (length sent_now <= length rows)%nat.
Proof.
  revert n bs st. induction rows as [|row rest IH]; intros n bs st.
  - exists []. simpl. by rewrite app_nil_r.
  - cbn [iter_rows]. unfold bind.
    destruct (loop_body_requests t p c cnt n row bs st) as (e1 & He1 & Hl1).
    destruct (loop_body t p c cnt n row bs st) as [[bs1|err] st1]; simpl in *.
    + destruct (IH (S n) bs1 st1) as (e2 & He2 & Hl2).
      exists (e1 ++ e2). rewrite He2, He1, <- app_assoc.
      split; [done|]. rewrite length_app. lia.
    + exists e1. split; [done|]. lia.
Qed.


(** X4: the value-to-index map is never cleared: an observable recorded in
    it is still a key of it after any number of further rows and
    submissions. *)
Theorem map_never_cleared t p c cnt n rows bs st bs' st' (k : string) :
  iter_rows t p c cnt n rows bs st = (Ok bs', st') ->
  is_Some (source_row_index bs !! k) ->
  is_Some (source_row_index bs' !! k).
Proof.
  revert n bs st. induction rows as [|row rest IH]; intros n bs st.
  - simpl. by intros [= <- _].
  - cbn [iter_rows]. unfold bind.
    destruct (loop_body t p c cnt n row bs st) as [[bs1|err] st1] eqn:Hbody;
      [|discriminate].
    intros Hrest Hk. apply (IH _ _ _ Hrest).
    unfold loop_body, bind in Hbody.
    destruct (add_row t c row bs st) as [[[ix0 bs0]|e0] st0] eqn:Hadd;
      [|discriminate].
    destruct (add_row_shape t c row bs st ix0 bs0 st0 Hadd) as [_ Hshape].
    simpl in Hbody. apply flush_if_due_batch in Hbody.
    assert (is_Some (source_row_index bs0 !! k)) as Hk0.
    { destruct Hshape as [-> | (q & _ & ->)]; [done|]. simpl.
      destruct (decide (q = k)) as [->|Hne].
      - rewrite lookup_insert_eq. eauto.
      - by rewrite lookup_insert_ne. }
    subst bs1. by destruct (flush_due p n cnt (obs_batch bs0)).
Qed.

(** *** The flush at each row of a slice *)





(** *** Validation and the duplicate check, for every type *)

Lemma find_duplicates_by_observable (rs : list ResultRow) (o t : string) :
  same_observable o rs <> [] ->
  find_duplicates rs o t = Ok (same_observable o rs).
Proof.
  intros Hne. unfold find_duplicates. fold (same_observable o rs).
  by destruct (same_observable o rs).
Qed.

(** Where the check hands back a frame, the frame has a row exactly when
    the value is recorded. *)
Lemma find_duplicates_answer (rs : list ResultRow) (o t : string) :
  (exists r, r ∈ rs /\ Observable r = VStr o)
  \/ str_in t hash_types = false \/ query_error pandas = None ->
  exists dups,
    find_duplicates rs o t = Ok dups
    /\ (dups <> [] <->
        (exists r, r ∈ rs /\ Observable r = VStr o)
        \/ (str_in t hash_types = true
            /\ exists r, r ∈ rs
                 /\ (MD5 r = VStr o \/ SHA1 r = VStr o \/ SHA256 r = VStr o))).
Proof.
  intros Hcan.
  pose proof (same_observable_nonempty o rs) as Hobs.
  pose proof (same_hash_nonempty o rs) as Hhash.
  destruct (str_in t hash_types) eqn:Ht.
  - exists (map (set_Observable (VStr o)) (matched_rows o rs)). split.
    + apply find_duplicates_hash; [done|].
      destruct Hcan as [H|[H|H]]; [left; by apply Hobs|discriminate|by right].
    + unfold matched_rows.
      destruct (same_observable o rs) as [|r same]; simpl.
      * destruct (same_hash o rs) as [|r' hs]; simpl; split; try done.
        -- intros [H|[_ H]]; [by apply Hobs in H|by apply Hhash in H].
        -- intros _. right. split; [done|]. by apply Hhash.
      * split; [|done]. intros _. left. by apply Hobs.
  - exists (same_observable o rs). split; [by apply find_duplicates_plain|].
    rewrite Hobs. split; [by left|]. by intros [H|[H _]].
Qed.

(** X5: for every type, the duplicate check reports a duplicate exactly
    when some row of the results has the very value as its Observable, or,
    for the three hash types only, as its MD5, SHA1 or SHA256; when it
    reports none, the instance is left as it was and the status is "ok".
    This holds whenever the check does not reach a frame query that is
    refused; when it does, for a hash that is not the Observable of any
    row, the check raises and leaves the instance as it was. *)
Theorem duplicate_exactly_when_recorded o t ix st :
  let by_observable := exists r, r ∈ results st /\ Observable r = VStr o in
  let by_hash :=
    exists r, r ∈ results st
      /\ (MD5 r = VStr o \/ SHA1 r = VStr o \/ SHA256 r = VStr o) in
  (by_observable \/ str_in t hash_types = false \/ query_error pandas = None ->
   exists d st',
     _check_duplicate_submission o t ix st = (Ok d, st')
     /\ (is_dup d = true <->
         by_observable \/ (str_in t hash_types = true /\ by_hash))
     /\ (is_dup d = false -> st' = st /\ dup_status d = "ok"))
  /\ (forall e, ~ by_observable -> str_in t hash_types = true ->
      query_error pandas = Some e ->
      _check_duplicate_submission o t ix st = (Raise e, st)).
Proof.
  intros by_observable by_hash. split.
  - intros Hcan.
    destruct (find_duplicates_answer (results st) o t Hcan)
      as (dups & Hfind & Hiff).
    unfold _check_duplicate_submission. rewrite Hfind.
    destruct dups as [|r dups]; simpl.
    + eexists _, _. split; [done|]. split; [|done].
      split; [done|]. intros H. by apply Hiff in H.
    + eexists _, _. split; [done|]. split; [|done].
      split; [|done]. intros _. by apply Hiff.
  - intros e Hno Ht Hq. apply check_duplicate_refused.
    apply find_duplicates_refused; [done| |done].
    destruct (same_observable o (results st)) eqn:E; [done|].
    destruct Hno. apply same_observable_nonempty. by rewrite E.
Qed.

(** What the check has done when it returns. *)
Lemma check_duplicate_cases o t ix st d st1 :
  _check_duplicate_submission o t ix st = (Ok d, st1) ->
  (d = mkDuplicateStatus false "ok" /\ st1 = st)
  \/ (is_dup d = true
      /\ exists dups, dups <> []
           /\ st1 = set_results
                      (results st
                       ++ map (fun r => set_Status (VStr "Duplicate")
                                          (set_SourceIndex ix r)) dups) st).
Proof.
  unfold _check_duplicate_submission.
  destruct (find_duplicates (results st) o t) as [[|r dups]|e]; simpl.
  - intros [= <- <-]. by left.
  - intros [= <- <-]. right. split; [done|]. by exists (r :: dups).
  - discriminate.
Qed.

(** X6: validation accounts for what it turns away.  A missing
    observable, or one that the sanitizer rejects, makes it raise, with
    the instance as it was: the row built for it cannot be appended.
    When validation returns, the observable was accepted by the sanitizer;
    it returns no observable exactly when it has added rows to the
    results, the copies of a duplicate, each with the index of the input
    row; and an observable that it lets through is the sanitized one, the
    instance being as before. *)
Theorem validation_accounts_for_rejections obs t ix st :
  ((obs = None
    \/ exists o, obs = Some o /\ observable (preprocess_observable o t) = None) ->
   _validate_observable obs t ix st = (Raise (append_error pandas), st))
  /\ (forall pp st',
      _validate_observable obs t ix st = (Ok pp, st') ->
      exists o added,
        obs = Some o
        /\ is_Some (observable (preprocess_observable o t))
        /\ results st' = results st ++ added
        /\ (observable pp = None <-> added <> [])
        /\ Forall (fun r => SourceIndex r = ix /\ Status r = VStr "Duplicate")
             added
        /\ (forall q, observable pp = Some q ->
            pp = preprocess_observable o t /\ st' = st)).
Proof.
  unfold _validate_observable. split.
  - intros [-> | (o & -> & Hpp)]; [done|]. by rewrite Hpp.
  - intros pp st'. destruct obs as [o|]; [|discriminate].
    destruct (observable (preprocess_observable o t)) as [q|] eqn:Hpp;
      [|discriminate].
    unfold bind at 1.
    destruct (_check_duplicate_submission o t ix st) as [[d|e] st1] eqn:Hcheck;
      [|discriminate].
    apply check_duplicate_cases in Hcheck
      as [[-> ->] | (Hdup & dups & Hne & ->)].
    + simpl. unfold ret. intros [= <- <-].
      exists o, []. rewrite app_nil_r, Hpp.
      repeat split; try done; by eauto.
    + rewrite Hdup. unfold bind, _print_status, ret.
      destruct (2 <=? verbosity _); simpl; intros [= <- <-];
        eexists o, _; (split; [done|]); (split; [by eauto|]); simpl;
        (split; [done|]);
        (split; [split; [intros _; by destruct dups|done]|]);
        (split; [|done]);
        apply Forall_forall; intros r' Hr';
        apply list_elem_of_fmap in Hr' as (r0 & -> & _); done.
Qed.

Lemma already_answered_mono t rs rs' row :
  rs `prefix_of` rs' -> already_answered t rs row -> already_answered t rs' row.
Proof.
  intros [k ->] (o & Hobs & Hpp & r & Hin & Hr).
  exists o. repeat split; try done. exists r. split; [|done].
  apply elem_of_app. by left.
Qed.

Lemma add_row_already_answered t c row bs st :
  already_answered t (results st) row ->
  exists st', add_row t c row bs st = (Ok (row_index c row, bs), st').
Proof.
  intros (o & Hobs & [q Hpp] & Hknown).
  apply same_observable_nonempty in Hknown.
  unfold add_row, bind at 1, _validate_observable. rewrite Hobs, Hpp.
  unfold bind at 1, _check_duplicate_submission.
  rewrite (find_duplicates_by_observable _ _ _ Hknown).
  destruct (same_observable o (results st)) as [|r same]; [done|].
  simpl. unfold bind, _print_status, ret.
  destruct (2 <=? verbosity _); simpl; by eexists.
Qed.

(** X7: a slice all of whose observables are accepted by the sanitizer
    and already recorded as the Observable of a row of the results is
    worked through without a single request: the loop returns, with the
    batch as it found it. *)
Theorem answered_rows_send_nothing t p c cnt n rows bs st :
  obs_batch bs = [] ->
  Forall (already_answered t (results st)) rows ->
  exists st',
    iter_rows t p c cnt n rows bs st = (Ok bs, st')
    /\ requests st' = requests st.
Proof.
  intros Hempty. revert n st.
  induction rows as [|row rest IH]; intros n st Hknown.
  - by exists st.
  - apply Forall_cons in Hknown as [Hrow Hrest].
    destruct (add_row_already_answered t c row bs st Hrow) as [st1 Hadd].
    assert (Hbody : loop_body t p c cnt n row bs st = (Ok bs, st1)).
    { unfold loop_body, bind. rewrite Hadd. simpl.
      unfold flush_if_due, flush_due. rewrite Hempty. simpl.
      by rewrite andb_false_r. }
    pose proof (appends_loop_body t p c cnt n row bs st) as Hpre.
    pose proof (silent_add_row t c row bs st) as Hsil.
    rewrite Hadd in Hsil. rewrite Hbody in Hpre. simpl in Hsil, Hpre.
    destruct (IH (S n) st1) as (st' & Hrun & Hreq).
    { eapply Forall_impl; [exact Hrest|].
      intros r. by apply already_answered_mono. }
    exists st'. cbn [iter_rows]. unfold bind. rewrite Hbody.
    split; [done|]. by rewrite Hreq.
Qed.

(** *** The rows of a parsed response *)

Lemma parse_vt_results_some v obs t ix m p st elems :
  results_to_parse (decode v) p = Some elems ->
  _parse_vt_results v obs t ix m p st =
  parse_elements (length elems) obs t ix m (submitted_literals obs p) 0 elems st.
Proof.
  intros H. unfold _parse_vt_results. rewrite H. by unfold bind, ret.
Qed.

Lemma correlate_same_but_source n obs ix m observables i e row0 row :
  correlate n obs ix m observables i e row0 = Ok row ->
  same_but_source row0 row.
Proof.
  unfold correlate, same_but_source. intros H.
  assert (Hset : forall o x, set_SourceIndex (SourceIndex row0)
            (set_Observable (Observable row0)
               (set_SourceIndex x (set_Observable o row0))) = row0)
    by (intros; by destruct row0).
  destruct m as [m|]; [|by simplify_eq].
  destruct ((n =? 1)%nat || (size m =? 1)%nat); [by simplify_eq|].
  ok_inv H; repeat case_match; ok_inv H; by simplify_eq.
Qed.

(** X8: when [_parse_vt_results] returns, it has added one row per
    element of the response, in the order of the elements, and the row of
    an element has Status "Success", the type as IoCType, the serialized
    element as RawResponse and, Observable and SourceIndex apart, the cells
    that [_parse_single_result] read from the element. *)
Theorem one_success_row_per_element v obs t ix m p st st' elems :
  results_to_parse (decode v) p = Some elems ->
  _parse_vt_results v obs t ix m p st = (Ok tt, st') ->
  exists rows,
    results st' = results st ++ rows
    /\ length rows = length elems
    /\ forall i e, elems !! i = Some e ->
       exists row0 row,
         rows !! i = Some row
         /\ _parse_single_result e t = Ok row0
         /\ Status row = VStr "Success"
         /\ IoCType row = VStr t
         /\ RawResponse row = VStr (json_dumps e)
         /\ same_but_source
              (set_RawResponse (VStr (json_dumps e))
                 (set_Status (VStr "Success") (set_IoCType (VStr t) row0)))
              row.
Proof.
  intros Hshape Hrun. rewrite (parse_vt_results_some _ _ _ _ _ _ _ _ Hshape) in Hrun.
  apply parse_elements_rows in Hrun as (rows & Hres & Hlen & Hall).
  exists rows. split; [done|]. split; [done|].
  intros i e He. destruct (Hall i e He) as (row0 & row & Hi & Hsingle & Hcor).
  exists row0, row. apply correlate_same_but_source in Hcor.
  split; [done|]. split; [done|].
  pose proof (f_equal Status Hcor) as Hstatus.
  pose proof (f_equal IoCType Hcor) as Htype.
  pose proof (f_equal RawResponse Hcor) as Hraw.
  by repeat split.
Qed.

(** X9: when the response has exactly one element, or no map is passed,
    or the map has exactly one entry, every row is attributed to the
    submitted string as a whole and to the index passed in, whatever the
    element says. *)
Theorem whole_submission_attribution v obs t ix m p st st' elems :
  results_to_parse (decode v) p = Some elems ->
  length elems = 1%nat \/ m = None \/ (exists m', m = Some m' /\ size m' = 1%nat) ->
  _parse_vt_results v obs t ix m p st = (Ok tt, st') ->
  exists rows,
    results st' = results st ++ rows
    /\ length rows = length elems
    /\ Forall (fun r => Observable r = VStr obs /\ SourceIndex r = ix) rows.
Proof.
  intros Hshape Hone Hrun.
  rewrite (parse_vt_results_some _ _ _ _ _ _ _ _ Hshape) in Hrun.
  apply parse_elements_rows in Hrun as (rows & Hres & Hlen & Hall).
  exists rows. split; [done|]. split; [done|].
  apply Forall_forall. intros r Hr.
  apply list_elem_of_lookup in Hr as [i Hi].
  destruct (lookup_lt_is_Some_2 elems i) as [e He].
  { rewrite <- Hlen. by eapply lookup_lt_Some. }
  destruct (Hall i e He) as (row0 & row & Hi' & _ & Hcor).
  rewrite Hi in Hi'. injection Hi' as <-.
  unfold correlate in Hcor.
  destruct m as [m|]; [|by simplify_eq].
  destruct Hone as [Hone|[Hone|(m' & [= <-] & Hone)]]; [|done|].
  - rewrite Hone in Hcor. simpl in Hcor. by simplify_eq.
  - rewrite Hone in Hcor. rewrite orb_true_r in Hcor. by simplify_eq.
Qed.

Lemma parse_elements_app n obs t ix m observables i elems1 elems2 st :
  parse_elements n obs t ix m observables i (elems1 ++ elems2) st =
  bind (parse_elements n obs t ix m observables i elems1)
       (fun _ => parse_elements n obs t ix m observables
                   (i + length elems1) elems2) st.
Proof.
  revert i st. induction elems1 as [|e rest IH]; intros i st.
  - simpl. unfold bind, ret. by rewrite Nat.add_0_r.
  - cbn [app parse_elements length]. unfold bind, lift, append_results.
    destruct (_parse_single_result e t) as [row0|err]; [|done].
    destruct (correlate n obs ix m observables i e _) as [row|err]; [|done].
    rewrite IH. unfold bind. by rewrite Nat.add_succ_r.
Qed.

(** X10: an exception in the middle of a response keeps what was done
    before it: when the elements up to some position have been parsed and
    the next one makes [_parse_single_result] raise, [_parse_vt_results]
    raises the same exception, and the instance is left as it was after the
    earlier elements, their rows in the results. *)
Theorem rows_before_a_bad_element_stay v obs t ix m p st elems1 e elems2
    st1 err :
  results_to_parse (decode v) p = Some (elems1 ++ e :: elems2) ->
  parse_elements (length (elems1 ++ e :: elems2)) obs t ix m
    (submitted_literals obs p) 0 elems1 st = (Ok tt, st1) ->
  _parse_single_result e t = Raise err ->
  _parse_vt_results v obs t ix m p st = (Raise err, st1)
  /\ exists rows, results st1 = results st ++ rows
                  /\ length rows = length elems1.
Proof.
  intros Hshape Hfirst Hbad.
  rewrite (parse_vt_results_some _ _ _ _ _ _ _ _ Hshape).
  rewrite parse_elements_app. unfold bind at 1. rewrite Hfirst.
  cbn [parse_elements]. unfold bind at 1, lift. rewrite Hbad.
  split; [done|].
  apply parse_elements_rows in Hfirst as (rows & Hres & Hlen & _).
  by exists rows.
Qed.

(** An element that is not an object makes [_parse_single_result] raise
    for the types whose fields it reads. *)
Lemma parse_single_non_object e t :
  (forall d, e <> VDict d) ->
  str_in t ["url"; "md5_hash"; "sha1_hash"; "sha256_hash"; "ipv4"; "dns"] = true ->
  _parse_single_result e t = Raise AttributeError.
Proof.
  intros He Ht. unfold str_in in Ht. simpl in Ht.
  rewrite !orb_true_iff, !String.eqb_eq in Ht.
  destruct e; try (by destruct (He d));
    destruct Ht as [->|[->|[->|[->|[->|[->|[=]]]]]]]; reflexivity.
Qed.



(** *** What an address or domain report leaves empty *)

(** X13: for an address or a domain report, the cells of the URL and file
    reports (ScanId, Resource, Permalink, MD5, SHA1, SHA256) stay empty,
    an address report never fills ResolvedIPs nor a domain report
    ResolvedDomains, and Positives and DetectedUrls are filled from
    "detected_urls" alone: without that field both stay empty, whatever
    top-level "positives" the report carries. *)
Theorem address_and_domain_cells (d : list (string * value)) (t : string)
    (row : ResultRow) :
  t = "ipv4" \/ t = "dns" ->
  _parse_single_result (VDict d) t = Ok row ->
  ResponseCode row = default VNone (dict_get "response_code" d)
  /\ VerboseMsg row = default VNone (dict_get "verbose_msg" d)
  /\ ScanId row = VNone /\ Resource row = VNone /\ Permalink row = VNone
  /\ MD5 row = VNone /\ SHA1 row = VNone /\ SHA256 row = VNone
  /\ (t = "ipv4" -> ResolvedIPs row = VNone)
  /\ (t = "dns" -> ResolvedDomains row = VNone)
  /\ (dict_get "resolutions" d = None ->
      ResolvedDomains row = VNone /\ ResolvedIPs row = VNone)
  /\ (dict_get "detected_urls" d = None ->
      DetectedUrls row = VNone /\ Positives row = VNone).
Proof.
  intros Ht Hrow. unfold _parse_single_result in Hrow.
  destruct Ht as [-> | ->]; simpl in Hrow;
    destruct (dict_get "resolutions" d) as [res|] eqn:Hres;
    destruct (dict_get "detected_urls" d) as [urls|] eqn:Hurls;
    simpl in Hrow; ok_inv Hrow; simplify_eq; simpl;
    repeat split; try done; intros; simplify_eq.
Qed.

(** *** The single-observable entry point *)

Lemma assoc_none_iff {A} (key : string) (d : list (string * A)) :
  assoc key d = None <-> ~ In key d.*1.
Proof.
  induction d as [|[k x] d IH]; simpl; [tauto|].
  destruct (String.eqb_spec key k) as [->|Hne].
  - split; [done|]. intros H. destruct H. by left.
  - rewrite IH. split.
    + intros H [Heq|Hin]; [by subst|done].
    + intros H Hin. apply H. by right.
Qed.

(** X14: [lookup_ioc] turns its input away before anything is sent or
    recorded.  It raises [SyntaxError] when the observable or the type is
    missing and when the sanitizer rejects the observable (this even for a
    type that is not supported), and [LookupError] when the sanitizer
    accepts the observable but the type is not one of the supported input
    types; the instance is left untouched in each case. *)
Theorem lookup_ioc_rejections obs t out st :
  (obs = None \/ t = None ->
   lookup_ioc obs t out st =
   (Raise (SyntaxError "Invalid value for observable or ioc_type"), st))
  /\ (forall o ty, obs = Some o -> t = Some ty ->
      observable (preprocess_observable o ty) = None ->
      lookup_ioc obs t out st =
      (Raise (SyntaxError (fmt_opt (status (preprocess_observable o ty))
                           +:+ " for observable value " +:+ o)), st))
  /\ (forall o ty, obs = Some o -> t = Some ty ->
      is_Some (observable (preprocess_observable o ty)) ->
      ~ In ty _SUPPORTED_INPUT_TYPES ->
      exists msg, lookup_ioc obs t out st = (Raise (LookupError msg), st)).
Proof.
  split; [|split].
  - intros [-> | ->]; [done|]. by destruct obs.
  - intros o ty -> -> Hpp. unfold lookup_ioc. by rewrite Hpp.
  - intros o ty -> -> [q Hq] Hty. unfold lookup_ioc. rewrite Hq.
    assert (assoc ty _VT_TYPE_MAP = None) as ->; [|by eexists].
    by apply assoc_none_iff.
Qed.

(** X15: a lookup that passes those checks sends exactly one request, the
    sanitized observable under the descriptor of the type, whether or not
    the instance already holds a result for the observable; when the
    answer is an object from which [_parse_single_result] reads a row, one
    row is added, with Status "Success", the sanitized observable as
    Observable and 0 as SourceIndex. *)
Theorem lookup_ioc_one_request o ty out st q p :
  observable (preprocess_observable o ty) = Some q ->
  type_params ty = Some p ->
  let run := lookup_ioc (Some o) (Some ty) out st in
  requests run.2 = requests st ++ [(q, p)]
  /\ (forall d code row0,
      service_answer (http_exchange (length (requests st)) q p)
        = Ok (VDict d, code) ->
      _parse_single_result (VDict d) ty = Ok row0 ->
      exists res,
        run.1 = Ok res
        /\ results run.2 =
           results st ++
           [set_SourceIndex (VInt 0)
              (set_Observable (VStr q)
                 (set_RawResponse (VStr (json_dumps (VDict d)))
                    (set_Status (VStr "Success")
                       (set_IoCType (VStr ty) row0))))]).
Proof.
  intros Hq Hp run. subst run. unfold lookup_ioc. rewrite Hq.
  destruct (type_params_url ty p Hp) as [u Hu].
  unfold type_params in Hp.
  destruct (assoc ty _VT_TYPE_MAP) as [vt|]; [|discriminate]. rewrite Hp.
  split.
  - unfold bind at 1, _vt_submit_request. rewrite Hu.
    set (st1 := mkVTLookup _ _ _ _).
    destruct (service_answer (http_exchange (length (requests st)) q p))
      as [answer|err0]; [|done].
    pose proof (silent_parse_vt_results answer.1 q ty (VInt 0) None None st1)
      as Hsil.
    unfold bind.
    destruct (_parse_vt_results _ q ty (VInt 0) None None st1)
      as [[[]|err] st2]; simpl in *; [|done].
    rewrite <- Hsil. destruct (String.eqb out "dict"); [|done].
    by destruct (results st2) as [|r [|r' rs]].
  - intros d code row0 Hx Hrow0.
    set (row := set_SourceIndex (VInt 0) _).
    assert (Hparse : forall s,
              _parse_vt_results (VDict d) q ty (VInt 0) None None s =
              (Ok tt, set_results (results s ++ [row]) s)).
    { intros s.
      rewrite (parse_vt_results_some (VDict d) q ty (VInt 0) None None s
                 [VDict d] eq_refl).
      cbn [parse_elements length]. unfold bind, lift. by rewrite Hrow0. }
    set (X := bind (_vt_submit_request q p) _).
    assert (HX : exists res,
              X st = (Ok res,
                   set_results (results st ++ [row])
                     (mkVTLookup (verbosity st) (results st) (log st)
                        (requests st ++ [(q, p)])))).
    { subst X. unfold bind at 1, _vt_submit_request. rewrite Hu, Hx.
      cbn [fst]. unfold bind at 1. rewrite Hparse. cbn [results set_results].
      destruct (String.eqb out "dict"); [|by eexists].
      destruct (results st ++ [row]) as [|r [|r' rs]]; by eexists. }
    destruct HX as [res ->]. by exists res.
Qed.

(** *** The frame entry point *)

Lemma assign_on_keys (f : string -> string) (k0 v0 : string)
    (keys : list string) :
  NoDup keys -> In k0 keys ->
  assign k0 v0 (map (fun k => (k, f k)) keys) =
  map (fun k => (k, if String.eqb k k0 then v0 else f k)) keys.
Proof.
  induction 1 as [|k keys Hk Hnd IH]; [done|]. intros Hin. simpl.
  destruct (String.eqb_spec k0 k) as [->|Hne].
  - rewrite String.eqb_refl. f_equal. apply map_ext_in.
    intros k' Hk'. destruct (String.eqb_spec k' k) as [->|_]; [|done].
    destruct Hk. by apply list_elem_of_In.
  - destruct (String.eqb_spec k k0) as [->|_]; [done|]. f_equal.
    apply IH. by destruct Hin as [->|Hin].
Qed.

Lemma add_custom_mappings_on_keys (keys : list string)
    (kwargs : list (string * string)) (f : string -> string) :
  NoDup keys -> NoDup kwargs.*1 ->
  add_custom_mappings keys kwargs (map (fun k => (k, f k)) keys) =
  map (fun k => (k, default (f k) (assoc k kwargs))) keys.
Proof.
  intros Hkeys. revert f.
  induction kwargs as [|[k0 v0] kwargs IH]; intros f Hnd; [done|].
  apply NoDup_cons in Hnd as [Hk0 Hnd].
  unfold add_custom_mappings in *. cbn [fold_left fst snd].
  assert (Hfresh : assoc k0 kwargs = None).
  { apply assoc_none_iff. intros Hin. apply Hk0.
    by apply list_elem_of_In. }
  destruct (str_in k0 keys) eqn:Hin.
  - rewrite assign_on_keys; [|done|].
    + rewrite IH by done. apply map_ext. intros k. simpl.
      destruct (String.eqb_spec k k0) as [->|_]; [|done].
      by rewrite Hfresh.
    + unfold str_in in Hin. apply existsb_exists in Hin as (k & Hk & Heq).
      apply String.eqb_eq in Heq. by subst.
  - rewrite IH by done. apply map_ext_in. intros k Hk. simpl.
    destruct (String.eqb_spec k k0) as [->|_]; [|done].
    assert (str_in k0 keys = true); [|congruence].
    unfold str_in. apply existsb_exists. exists k0.
    split; [done|apply String.eqb_refl].
Qed.

Lemma map_types_to_themselves_keyed (custom : list (string * string)) :
  well_keyed custom ->
  map_types_to_themselves _SUPPORTED_INPUT_TYPES custom =
  map (fun k => (k, k)) _SUPPORTED_INPUT_TYPES.
Proof.
  intros [-> | Hkeys]; [reflexivity|].
  do 6 (destruct custom as [|[? ?] custom]; [discriminate Hkeys|]).
  destruct custom; [|discriminate Hkeys].
  injection Hkeys as -> -> -> -> -> ->. reflexivity.
Qed.

Lemma supported_types_nodup : NoDup _SUPPORTED_INPUT_TYPES.
Proof. apply (bool_decide_unpack _). by vm_compute. Qed.

(** X17: whatever the earlier calls were, a call of [lookup_iocs] leaves
    the type map of the instance as the supported types in their order,
    each under the name that the call's own mappings give it, or under its
    own name: mappings for other names are ignored, and those of earlier
    calls do not persist.  This holds whether the call returns or
    raises. *)
Theorem type_map_is_rebuilt data src_index_col kwargs s :
  well_keyed (_ioc_custom_type_map s) ->
  NoDup kwargs.*1 ->
  let s' := (lookup_iocs data src_index_col kwargs s).2 in
  _ioc_custom_type_map s' = type_map_for kwargs
  /\ well_keyed (_ioc_custom_type_map s').
Proof.
  intros Hkeyed Hnd s'. subst s'. unfold lookup_iocs.
  change _get_supported_vt_ioc_types with (Ok _SUPPORTED_INPUT_TYPES).
  cbv beta iota zeta.
  rewrite (map_types_to_themselves_keyed _ Hkeyed).
  rewrite (add_custom_mappings_on_keys _ kwargs (fun k => k)
             supported_types_nodup Hnd).
  fold (type_map_for kwargs).
  match goal with
  | |- context [let '(out, st') := ?run in _] => destruct run as [out st']
  end.
  simpl. split; [done|]. right. unfold type_map_for.
  rewrite <- list_fmap_compose. apply list_fmap_id.
Qed.

Lemma supported_types_have_params k :
  In k _SUPPORTED_INPUT_TYPES -> is_Some (type_params k).
Proof.
  simpl. intros [<-|[<-|[<-|[<-|[<-|[<-|[]]]]]]]; by eexists.
Qed.

Lemma lookup_ioc_type_empty t c st :
  In t _SUPPORTED_INPUT_TYPES -> _lookup_ioc_type [] t c st = (Ok tt, st).
Proof.
  intros [p Hp]%supported_types_have_params.
  unfold _lookup_ioc_type. by rewrite Hp.
Qed.

Lemma lookup_each_type_nothing data c items st :
  Forall (fun kv => In kv.1 _SUPPORTED_INPUT_TYPES
                    /\ rows_of_type data kv.2 = []) items ->
  lookup_each_type data c items st = (Ok tt, st).
Proof.
  induction 1 as [|[k v] items [Hk Hrows] _ IH]; [done|].
  cbn [lookup_each_type]. simpl in Hk, Hrows. rewrite Hrows.
  unfold bind. by rewrite lookup_ioc_type_empty.
Qed.

(** X18: input rows whose type tag is none of the names in the type map
    are passed over in silence: when no row of the frame carries a mapped
    name, [lookup_iocs] returns the results as they were, records nothing
    and sends nothing. *)
Theorem unmapped_rows_are_ignored data src_index_col kwargs s :
  well_keyed (_ioc_custom_type_map s) ->
  NoDup kwargs.*1 ->
  Forall (fun r => forall k, In k _SUPPORTED_INPUT_TYPES ->
                   cell_is r.1 (default k (assoc k kwargs)) = false)
         (frame_rows data) ->
  let run := lookup_iocs data src_index_col kwargs s in
  run.1 = Ok (results (engine s))
  /\ results (engine run.2) = results (engine s)
  /\ requests (engine run.2) = requests (engine s).
Proof.
  intros Hkeyed Hnd Hrows run. subst run. unfold lookup_iocs.
  change _get_supported_vt_ioc_types with (Ok _SUPPORTED_INPUT_TYPES).
  cbv beta iota zeta.
  rewrite (map_types_to_themselves_keyed _ Hkeyed).
  rewrite (add_custom_mappings_on_keys _ kwargs (fun k => k)
             supported_types_nodup Hnd).
  assert (Heach : forall c,
            lookup_each_type data c
              (map (fun k => (k, default k (assoc k kwargs)))
                 _SUPPORTED_INPUT_TYPES) (engine s) = (Ok tt, engine s)).
  { intros c. apply lookup_each_type_nothing.
    apply Forall_forall. intros [k v] Hin.
    apply list_elem_of_fmap in Hin as (k' & [= -> ->] & Hk').
    apply list_elem_of_In in Hk'. split; [done|]. simpl.
    unfold rows_of_type.
    assert (filter (fun r : value * InputRow =>
                      cell_is r.1 (default k' (assoc k' kwargs)))
              (frame_rows data) = []) as ->; [|done].
    induction Hrows as [|r rows Hr _ IH]; [done|].
    rewrite filter_cons. specialize (Hr k' Hk').
    destruct (decide _) as [Hyes|_]; [|done].
    apply Is_true_true in Hyes. congruence. }
  unfold bind. rewrite !Heach. unfold _print_status.
  by destruct (2 <=? verbosity (engine s)).
Qed.

Lemma appends_lookup_each_type data c items :
  appends (lookup_each_type data c items).
Proof.
  induction items as [|[k v] items IH]; simpl; [apply appends_ret|].
  apply appends_bind; [apply appends_lookup_ioc_type|by intros _].
Qed.

(** X19: [lookup_iocs] only appends to the results, whether it returns or
    raises, and what it returns is the whole results frame of the
    instance, the rows of earlier calls first. *)
Theorem lookup_iocs_returns_all_rows data src_index_col kwargs s :
  let run := lookup_iocs data src_index_col kwargs s in
  rows_kept (results (engine s)) (results (engine run.2))
  /\ (forall rs, run.1 = Ok rs -> rs = results (engine run.2)).
Proof.
  intros run. subst run. unfold lookup_iocs.
  change _get_supported_vt_ioc_types with (Ok _SUPPORTED_INPUT_TYPES).
  cbv beta iota zeta.
  set (custom := add_custom_mappings _ _ _).
  set (c := if str_in _ _ then _ else _).
  pose proof (appends_lookup_each_type data c custom (engine s)) as Hpre.
  unfold bind.
  destruct (lookup_each_type data c custom (engine s)) as [[[]|err] st1];
    simpl in *.
  - unfold _print_status. destruct (2 <=? verbosity st1); simpl;
      (split; [by apply prefix_rows_kept|by intros rs [= <-]]).
  - split; [by apply prefix_rows_kept|done].
Qed.

(** *** The status log *)

Lemma hushed_ret {A} (a : A) : hushed (ret a).
Proof. by intros st. Qed.

Lemma hushed_raise {A} (e : exn) : hushed (@raise A e).
Proof. by intros st. Qed.

Lemma hushed_lift {A} (o : outcome A) : hushed (lift o).
Proof. by intros st. Qed.

Lemma hushed_bind {A B} (m : M A) (f : A -> M B) :
  hushed m -> (forall a, hushed (f a)) -> hushed (bind m f).
Proof.
  intros Hm Hf st Hv. unfold bind. destruct (Hm st Hv) as [Hv1 Hl1].
  destruct (m st) as [[a|e] st1]; simpl in *; [|done].
  destruct (Hf a st1) as [Hv2 Hl2]; [lia|]. split; congruence.
Qed.

Lemma hushed_append_results rows : hushed (append_results rows).
Proof. by intros st. Qed.

Lemma hushed_print_status msg lvl : 1 <= lvl -> hushed (_print_status msg lvl).
Proof.
  intros Hlvl st Hv. unfold _print_status.
  destruct (Z.leb_spec lvl (verbosity st)); [lia|done].
Qed.

Lemma hushed_submit s p : hushed (_vt_submit_request s p).
Proof. intros st Hv. unfold _vt_submit_request. by case_match. Qed.

Lemma hushed_add_invalid obs t s ix :
  hushed (_add_invalid_input_result obs t s ix).
Proof. by intros st. Qed.

Lemma hushed_check_duplicate obs t ix :
  hushed (_check_duplicate_submission obs t ix).
Proof.
  intros st Hv. unfold _check_duplicate_submission. by repeat case_match.
Qed.

Create HintDb hushed discriminated.
#[local] Hint Resolve hushed_ret hushed_raise hushed_lift
  hushed_append_results hushed_submit hushed_add_invalid
  hushed_check_duplicate : hushed.

Ltac hushed_step :=
  first
    [ solve [eauto with hushed]
    | apply hushed_bind; [|intros ?]
    | apply hushed_print_status; lia
    | case_match ].

Lemma hushed_validate obs t ix : hushed (_validate_observable obs t ix).
Proof. unfold _validate_observable. repeat hushed_step. Qed.

Lemma hushed_parse_elements n obs t ix m observables i elems :
  hushed (parse_elements n obs t ix m observables i elems).
Proof.
  revert i. induction elems as [|e rest IH]; intros i; simpl.
  - apply hushed_ret.
  - repeat hushed_step.
Qed.

Lemma hushed_parse_vt_results v obs t ix m p :
  hushed (_parse_vt_results v obs t ix m p).
Proof.
  unfold _parse_vt_results.
  apply hushed_bind; [|intros ?; apply hushed_parse_elements].
  repeat hushed_step.
Qed.

Lemma hushed_record_failures t s sub code body m batch :
  hushed (record_failures t s sub code body m batch).
Proof.
  induction batch as [|o rest IH]; simpl.
  - apply hushed_ret.
  - repeat hushed_step.
Qed.

#[local] Hint Resolve hushed_validate hushed_parse_elements
  hushed_parse_vt_results hushed_record_failures : hushed.

Lemma hushed_loop_body t p c cnt n row bs :
  hushed (loop_body t p c cnt n row bs).
Proof.
  unfold loop_body, add_row, flush_if_due.
  apply hushed_bind; [repeat hushed_step|intros [ix bs1]]. simpl.
  case_match; [|apply hushed_ret].
  apply hushed_bind; [apply hushed_print_status; lia|intros _].
  apply hushed_bind; [apply hushed_submit|intros [body code]].
  repeat hushed_step.
Qed.

Lemma hushed_lookup_ioc_type frame t c : hushed (_lookup_ioc_type frame t c).
Proof.
  unfold _lookup_ioc_type. case_match; [|apply hushed_raise].
  apply hushed_bind; [|intros ?; apply hushed_ret].
  generalize 1%nat (length frame) initial_batch.
  induction frame as [|row rest IH]; intros n cnt bs; simpl.
  - apply hushed_ret.
  - apply hushed_bind; [apply hushed_loop_body|intros ?; apply IH].
Qed.

Lemma hushed_lookup_ioc obs t out : hushed (lookup_ioc obs t out).
Proof.
  unfold lookup_ioc.
  destruct obs as [o|]; [|apply hushed_raise].
  destruct t as [t|]; [|apply hushed_raise].
  destruct (observable (preprocess_observable o t)); [|apply hushed_raise].
  destruct (assoc t _VT_TYPE_MAP) as [vt|]; [|apply hushed_raise].
  destruct (assoc vt _VT_API_TYPES) as [p|]; [|apply hushed_raise].
  apply hushed_bind; [apply hushed_submit|intros ?].
  apply hushed_bind; [apply hushed_parse_vt_results|intros _].
  intros st _. destruct (String.eqb out "dict"); [|done].
  by destruct (results st) as [|r [|r' rs]].
Qed.

(** X20: every message of the engine goes through [_print_status] at
    level 1 or 2, so an instance created with verbosity 0 never logs:
    neither a batch lookup nor a single lookup adds anything to the log or
    changes the verbosity, whether it returns or raises. *)
Theorem verbosity_zero_logs_nothing st :
  verbosity st = 0 ->
  (forall frame t c,
     log (_lookup_ioc_type frame t c st).2 = log st
     /\ verbosity (_lookup_ioc_type frame t c st).2 = 0)
  /\ (forall obs t out,
      log (lookup_ioc obs t out st).2 = log st
      /\ verbosity (lookup_ioc obs t out st).2 = 0).
Proof.
  intros Hv. split.
  - intros frame t c.
    destruct (hushed_lookup_ioc_type frame t c st) as [H1 H2]; [lia|].
    split; congruence.
  - intros obs t out.
    destruct (hushed_lookup_ioc obs t out st) as [H1 H2]; [lia|].
    split; congruence.
Qed.

End Engine.

(** ** The report addresses of the registry *)

(** X21: every descriptor that the engine can select for a type has its
    report URL: [_get_vt_api_url] returns, for the API type of the
    descriptor, the address of that type's report, and it raises
    [LookupError] for any name that is not an API type of the registry. *)
Theorem every_descriptor_has_a_url (t : string) (p : VTParams) :
  type_params t = Some p ->
  _get_vt_api_url (api_type p) =
    Ok ("https://www.virustotal.com/vtapi/v2/" +:+ api_type p +:+ "/report")
  /\ forall name, assoc name _VT_API_TYPES = None ->
       _get_vt_api_url name =
         Raise (LookupError ("Unknown api type '" +:+ name +:+ "'")).
Proof.
  intros Hp. split.
  - unfold type_params in Hp. simpl in Hp.
    repeat match type of Hp with
           | context [String.eqb t ?s] =>
               destruct (String.eqb t s);
               [simpl in Hp; injection Hp as <-; reflexivity|]
           end.
    discriminate.
  - intros name Hname. unfold _get_vt_api_url. by rewrite Hname.
Qed.

(** ** The properties at sample inputs *)

(** C6 at an address report that also carries a top-level [positives]. *)
Lemma multi_valued_flattening_witness :
  exists row,
    _parse_single_result
      (VDict [("positives", VInt 99);
              ("resolutions", VList [VDict [("hostname", VStr "a.com")];
                                     VDict [("hostname", VStr "b.com")]]);
              ("detected_urls",
               VList [VDict [("url", VStr "x"); ("positives", VInt 2)];
                      VDict [("url", VStr "y"); ("positives", VInt 3)]])])
      "ipv4" = Ok row
    /\ ResolvedDomains row = VStr "a.com, b.com"
    /\ DetectedUrls row = VStr "x, y"
    /\ Positives row = VInt 5.
Proof.
  eexists. split; [reflexivity|].
  destruct (multi_valued_flattening
              [("positives", VInt 99);
               ("resolutions", VList [VDict [("hostname", VStr "a.com")];
                                      VDict [("hostname", VStr "b.com")]]);
               ("detected_urls",
                VList [VDict [("url", VStr "x"); ("positives", VInt 2)];
                       VDict [("url", VStr "y"); ("positives", VInt 3)]])]
              "ipv4" (or_introl eq_refl)) as [Hcells _].
  destruct (Hcells _ eq_refl) as (Hdom & _ & Hurls).
  split; [exact (Hdom eq_refl eq_refl)|exact (Hurls eq_refl)].
Defined.


(** C7, as the code has it, at a URL whose lookup is answered, with
    status 200, by a JSON string that holds no JSON: no row, one message,
    and the loop goes on. *)
Lemma malformed_response_dropped_witness :
  exists st2,
    loop_body From_2_2 no_decoder some_dumps some_repr accept_as_is
      (always_answer (VStr "Service Unavailable") 200)
      "url" url_params None 2 1 (input_row 0 "http://example.com/")
      initial_batch new_instance
    = (Ok (emptied (batch_of_one "http://example.com/" (VInt 0))), st2)
    /\ results st2 = []
    /\ length (log st2) = 1%nat.
Proof.
  destruct (malformed_response_dropped From_2_2 no_decoder some_dumps
              some_repr accept_as_is
              (always_answer (VStr "Service Unavailable") 200)
              "url" url_params None 2 1 (input_row 0 "http://example.com/")
              [] initial_batch new_instance (VInt 0)
              (batch_of_one "http://example.com/" (VInt 0)) new_instance
              (VStr "Service Unavailable")
              eq_refl eq_refl eq_refl eq_refl I)
    as (_ & Hres & Hlog & Hbody & _).
  eexists. split; [exact Hbody|]. split; [exact Hres|].
  rewrite Hlog. reflexivity.
Defined.

(** C7 as stated fails: on an instance of verbosity 0 the same answer is
    dropped without any message, whatever the pandas. *)
Lemma malformed_response_not_logged :
  Forall
    (fun pandas =>
       _lookup_ioc_type pandas no_decoder some_dumps some_repr accept_as_is
         (always_answer (VStr "Service Unavailable") 200)
         [input_row 0 "http://example.com/"] "url" None silent_instance
       = (Ok tt,
          mkVTLookup 0 [] [] [("http://example.com/", url_params)]))
    every_pandas.
Proof. repeat constructor. Qed.

(** X22 at two URLs the first of which is answered with status 200 and a
    body that is no JSON: the exception of [response.json()] ends the
    lookup, and the second URL is never submitted. *)
Lemma undecodable_success_body_aborts_witness :
  _lookup_ioc_type From_2_2 no_decoder some_dumps some_repr accept_as_is
    (never_json 200)
    [input_row 0 "http://example.com/"; input_row 1 "http://example.org/"]
    "url" None silent_instance
  = (Raise JSONDecodeError,
     mkVTLookup 0 [] [] [("http://example.com/", url_params)]).
Proof.
  exact (undecodable_success_body_aborts From_2_2 no_decoder some_dumps
           some_repr accept_as_is (never_json 200) "url" url_params None []
           (input_row 0 "http://example.com/")
           [input_row 1 "http://example.org/"] silent_instance initial_batch
           silent_instance (VInt 0)
           (batch_of_one "http://example.com/" (VInt 0)) silent_instance
           eq_refl eq_refl eq_refl eq_refl eq_refl eq_refl).
Defined.

(** C4 against the code, at two URLs the first of which is answered with
    status 403 and an error object: no row is recorded, the lookup raises,
    and the second URL is never submitted. *)
Lemma failed_submission_raises_witness :
  _lookup_ioc_type From_2_2 no_decoder some_dumps some_repr accept_as_is
    (always_answer quota_body 403)
    [input_row 0 "http://example.com/"; input_row 1 "http://example.org/"]
    "url" None silent_instance
  = (Raise AttributeError,
     mkVTLookup 0 [] [] [("http://example.com/", url_params)]).
Proof.
  destruct (failed_submission_raises From_2_2 no_decoder some_dumps some_repr
              accept_as_is (always_answer quota_body 403) "url" url_params
              None [] (input_row 0 "http://example.com/")
              [input_row 1 "http://example.org/"] silent_instance
              initial_batch silent_instance (VInt 0)
              (batch_of_one "http://example.com/" (VInt 0)) silent_instance
              quota_body 403
              eq_refl eq_refl eq_refl eq_refl eq_refl)
    as (_ & _ & Hrun).
  - discriminate.
  - exact Hrun.
Defined.

(** C1, as the code has it, at a response that lists the two digests of a
    batch in the reverse order, each with its resource. *)
Lemma batch_element_correlation_witness :
  exists st',
    _parse_vt_results no_decoder some_dumps some_repr
      (VList [VDict [("resource", VStr md5_b)];
              VDict [("resource", VStr md5_a)]])
      (md5_a +:+ "," +:+ md5_b) "md5_hash" (VInt 1) (Some two_digests)
      (Some file_params) new_instance = (Ok tt, st')
    /\ exists row1 row2,
         results st' = [row1; row2]
         /\ Observable row1 = VStr md5_b /\ SourceIndex row1 = VInt 1
         /\ Observable row2 = VStr md5_a /\ SourceIndex row2 = VInt 0.
Proof.
  destruct (batch_element_correlation no_decoder some_dumps some_repr
              (VList [VDict [("resource", VStr md5_b)];
                      VDict [("resource", VStr md5_a)]])
              (md5_a +:+ "," +:+ md5_b) "md5_hash" file_params (VInt 1)
              two_digests new_instance
              [VDict [("resource", VStr md5_b)];
               VDict [("resource", VStr md5_a)]]
              eq_refl eq_refl eq_refl) as [Hrows Hreturns].
  - simpl. lia.
  - vm_compute. lia.
  - destruct Hreturns as [st' Hrun].
    + repeat constructor;
        (eexists; split; [reflexivity|]; intros r [= <-]; by eexists).
    + vm_compute. lia.
    + vm_compute. repeat constructor; by eexists.
    + exists st'. split; [exact Hrun|].
      destruct (Hrows st' Hrun) as (rows & Hres & Hlen & Hall).
      destruct rows as [|row1 [|row2 [|? ?]]]; try discriminate Hlen.
      exists row1, row2. split; [exact Hres|].
      destruct (Hall 0%nat _ eq_refl) as (r1 & [= <-] & Hfield1 & _).
      destruct (Hall 1%nat _ eq_refl) as (r2 & [= <-] & Hfield2 & _).
      destruct (Hfield1 _ eq_refl) as (Ho1 & Hs1 & _).
      destruct (Hfield2 _ eq_refl) as (Ho2 & Hs2 & _).
      repeat split; [exact Ho1|exact (Hs1 md5_b (VInt 1) eq_refl eq_refl)
                    |exact Ho2|exact (Hs2 md5_a (VInt 0) eq_refl eq_refl)].
Defined.

(** C1 as stated fails: an element whose resource is not a key of the map
    gets that resource as Observable, not the literal submitted at its
    position; only its SourceIndex is the one of that literal. *)
Lemma resource_kept_when_not_a_key :
  resource_field (VDict [("resource", VStr md5_a_upper)]) = Some (VStr md5_a_upper)
  /\ two_digests !! md5_a_upper = None
  /\ py_split (md5_a +:+ "," +:+ md5_b) "," !! 0%nat = Some md5_a
  /\ exists row1 row2,
       results
         (_parse_vt_results no_decoder some_dumps some_repr
            (VList [VDict [("resource", VStr md5_a_upper)];
                    VDict [("resource", VStr md5_b)]])
            (md5_a +:+ "," +:+ md5_b) "md5_hash" (VInt 1) (Some two_digests)
            (Some file_params) new_instance).2 = [row1; row2]
       /\ Observable row1 = VStr md5_a_upper
       /\ Observable row1 <> VStr md5_a
       /\ SourceIndex row1 = VInt 0.
Proof.
  split; [reflexivity|]. split; [vm_compute; reflexivity|].
  split; [vm_compute; reflexivity|].
  eexists _, _. split; [vm_compute; reflexivity|].
  repeat split; try reflexivity. discriminate.
Qed.

(** C2, as the code has it, at the digest of an earlier row, on the
    pandas that refuses the frame query: the Observable column answers
    before the query is reached. *)
Lemma duplicate_of_exact_value_witness :
  _check_duplicate_submission From_2_2 some_repr md5_a "md5_hash" (VInt 5)
    instance_with_earlier_row
  = (Ok (mkDuplicateStatus true "Duplicates of [...]"),
     mkVTLookup 1
       [earlier_row;
        set_Status (VStr "Duplicate") (set_SourceIndex (VInt 5) earlier_row)]
       [] [])
  /\ exists st',
       add_row From_2_2 some_repr accept_as_is "md5_hash" None
         (input_row 5 md5_a) initial_batch instance_with_earlier_row
       = (Ok (VInt 5, initial_batch), st')
       /\ requests st' = [].
Proof.
  destruct (duplicate_of_exact_value From_2_2 some_repr accept_as_is md5_a
              "md5_hash" (VInt 5) instance_with_earlier_row eq_refl)
    as [Hfound _].
  destruct Hfound as (_ & Hcheck & _ & Hrow).
  - left. exists earlier_row. split; [apply list_elem_of_here|reflexivity].
  - split; [rewrite Hcheck; reflexivity|].
    destruct (Hrow None (input_row 5 md5_a) initial_batch eq_refl eq_refl)
      as (st' & Hadd & Hreq & _); [by eexists|].
    exists st'. split; [exact Hadd|exact Hreq].
Defined.

(** C2 as stated fails: the same digest in upper case is not found in the
    results.  Whatever the pandas, no Duplicate row is added for it; where
    the frame query evaluates, the value joins the batch and is submitted,
    and where the query is refused, the lookup raises. *)
Lemma upper_case_digest_not_duplicate :
  Forall
    (fun pandas =>
       let check :=
         _check_duplicate_submission pandas some_repr md5_a_upper "md5_hash"
           (VInt 5) instance_with_earlier_row in
       let lookup :=
         _lookup_ioc_type pandas no_decoder some_dumps some_repr accept_as_is
           (always_answer (VDict []) 200) [input_row 5 md5_a_upper] "md5_hash"
           None instance_with_earlier_row in
       check.2 = instance_with_earlier_row
       /\ check.1 = match query_error pandas with
                    | None => Ok (mkDuplicateStatus false "ok")
                    | Some e => Raise e
                    end
       /\ Forall (fun r => Status r <> VStr "Duplicate") (results lookup.2)
       /\ requests lookup.2 = match query_error pandas with
                              | None => [(md5_a_upper, file_params)]
                              | Some _ => []
                              end)
    every_pandas.
Proof.
  repeat apply Forall_cons_2; [| | |apply Forall_nil_2];
    vm_compute; repeat split; repeat constructor; discriminate.
Qed.

(** C9 at an instance that already holds the row of an earlier lookup:
    the second lookup returns both rows, as a list. *)
Lemma lookup_ioc_returns_all_rows_witness :
  exists later_row st',
    lookup_ioc no_decoder some_dumps some_repr accept_as_is
      (always_answer (VDict [("response_code", VInt 1)]) 200)
      (Some "http://example.com/") (Some "url") "dict"
      instance_with_earlier_row
    = (Ok (DictList [earlier_row; later_row]), st')
    /\ results st' = [earlier_row; later_row]
    /\ Observable later_row = VStr "http://example.com/".
Proof.
  eexists _, _. split; [vm_compute; reflexivity|].
  match goal with
  | |- results ?s = _ /\ _ =>
      destruct (lookup_ioc_returns_all_rows no_decoder some_dumps some_repr
                  accept_as_is
                  (always_answer (VDict [("response_code", VInt 1)]) 200)
                  (Some "http://example.com/") (Some "url")
                  instance_with_earlier_row
                  (DictList [earlier_row;
                             mkResultRow (VStr "http://example.com/")
                               (VStr "url") (VStr "Success") (VInt 1)
                               (VStr "{...}") VNone (VInt 0) VNone VNone
                               VNone VNone VNone VNone VNone VNone VNone
                               VNone])
                  s) as (Hrows & _)
  end.
  - vm_compute. reflexivity.
  - split; [symmetry; exact Hrows|reflexivity].
Defined.

(** C10 at a slice of two rows that carry the same digest.  On a pandas
    whose frame query evaluates, neither is a duplicate and the digest is
    submitted twice in one request; on the pandas that refuses the query,
    the first row raises and nothing is submitted. *)
Lemma repeated_literal_in_one_batch_witness :
  requests
    (_lookup_ioc_type From_2_0 no_decoder some_dumps some_repr accept_as_is
       (always_answer (VList []) 200)
       [input_row 0 md5_a; input_row 1 md5_a] "md5_hash" None
       new_instance).2
  = [(md5_a +:+ "," +:+ md5_a, file_params)]
  /\ iter_rows From_2_2 no_decoder some_dumps some_repr accept_as_is
       (always_answer (VList []) 200) "md5_hash" file_params None 2 1
       [input_row 0 md5_a; input_row 1 md5_a] initial_batch new_instance
     = (Raise TypeError, new_instance).
Proof.
  split.
  - destruct (repeated_literal_in_one_batch From_2_0 no_decoder some_dumps
                some_repr accept_as_is (always_answer (VList []) 200)
                "md5_hash" file_params None 2 1 (input_row 0 md5_a)
                (input_row 1 md5_a) initial_batch new_instance md5_a md5_a
                eq_refl eq_refl eq_refl eq_refl eq_refl)
      as [Hworks _].
    + discriminate.
    + reflexivity.
    + reflexivity.
    + discriminate.
    + destruct (Hworks eq_refl) as (_ & _ & _ & _ & Hsent).
      specialize (Hsent eq_refl). vm_compute. vm_compute in Hsent.
      exact Hsent.
  - destruct (repeated_literal_in_one_batch From_2_2 no_decoder some_dumps
                some_repr accept_as_is (always_answer (VList []) 200)
                "md5_hash" file_params None 2 1 (input_row 0 md5_a)
                (input_row 1 md5_a) initial_batch new_instance md5_a md5_a
                eq_refl eq_refl eq_refl eq_refl eq_refl)
      as [_ Hraises].
    + discriminate.
    + reflexivity.
    + reflexivity.
    + discriminate.
    + destruct (Hraises TypeError eq_refl) as [_ Hloop].
      exact (Hloop []).
Defined.

(** X1 at a batch of two digests. *)
Lemma split_join_round_trip_witness :
  py_split (md5_a +:+ "," +:+ md5_b) "," = [md5_a; md5_b].
Proof.
  apply (split_join_round_trip ","%char [md5_a; md5_b]).
  - discriminate.
  - repeat constructor.
Defined.


(** X4 at a batch that holds one digest when the last row arrives. *)
Lemma map_never_cleared_witness :
  exists bs' st',
    iter_rows From_2_0 no_decoder some_dumps some_repr accept_as_is
      (always_answer (VList []) 200) "md5_hash" file_params None 2 2
      [input_row 1 md5_b] (batch_of_one md5_a (VInt 0)) new_instance
    = (Ok bs', st')
    /\ is_Some (source_row_index bs' !! md5_a).
Proof.
  destruct (iter_rows From_2_0 no_decoder some_dumps some_repr accept_as_is
              (always_answer (VList []) 200) "md5_hash" file_params None 2 2
              [input_row 1 md5_b] (batch_of_one md5_a (VInt 0)) new_instance)
    as [[bs'|e] st'] eqn:E.
  - exists bs', st'. split; [reflexivity|].
    apply (map_never_cleared From_2_0 no_decoder some_dumps some_repr
             accept_as_is (always_answer (VList []) 200) "md5_hash"
             file_params None 2 2 [input_row 1 md5_b]
             (batch_of_one md5_a (VInt 0)) new_instance bs' st' md5_a E).
    exists (VInt 0). vm_compute. reflexivity.
  - vm_compute in E. discriminate E.
Defined.

(** X7 at a slice that asks twice for the digest of an earlier row. *)
Lemma answered_rows_send_nothing_witness :
  exists st',
    iter_rows From_2_2 no_decoder some_dumps some_repr accept_as_is
      (always_answer (VList []) 200) "md5_hash" file_params None 2 1
      [input_row 5 md5_a; input_row 6 md5_a] initial_batch
      instance_with_earlier_row
    = (Ok initial_batch, st')
    /\ requests st' = requests instance_with_earlier_row.
Proof.
  apply (answered_rows_send_nothing From_2_2 no_decoder some_dumps some_repr
           accept_as_is (always_answer (VList []) 200) "md5_hash" file_params
           None 2 1 [input_row 5 md5_a; input_row 6 md5_a] initial_batch
           instance_with_earlier_row).
  - reflexivity.
  - repeat constructor;
      (exists md5_a; split; [reflexivity|]; split; [by eexists|];
       exists earlier_row; split; [constructor|reflexivity]).
Defined.

(** X8 and X9 at a batch of two digests answered by one object. *)
Lemma one_success_row_per_element_witness :
  exists st' rows,
    _parse_vt_results no_decoder some_dumps some_repr
      (VDict [("response_code", VInt 1)]) (md5_a +:+ "," +:+ md5_b)
      "md5_hash" (VInt 1) (Some two_digests) (Some file_params) new_instance
    = (Ok tt, st')
    /\ results st' = results new_instance ++ rows
    /\ length rows = 1%nat.
Proof.
  destruct (_parse_vt_results no_decoder some_dumps some_repr
              (VDict [("response_code", VInt 1)]) (md5_a +:+ "," +:+ md5_b)
              "md5_hash" (VInt 1) (Some two_digests) (Some file_params)
              new_instance) as [[[]|e] st'] eqn:E.
  - destruct (one_success_row_per_element no_decoder some_dumps some_repr
                (VDict [("response_code", VInt 1)]) (md5_a +:+ "," +:+ md5_b)
                "md5_hash" (VInt 1) (Some two_digests) (Some file_params)
                new_instance st' [VDict [("response_code", VInt 1)]]
                eq_refl E) as (rows & Hres & Hlen & _).
    exists st', rows. split; [reflexivity|]. split; [exact Hres|exact Hlen].
  - vm_compute in E. discriminate E.
Defined.

Lemma whole_submission_attribution_witness :
  exists st' rows,
    _parse_vt_results no_decoder some_dumps some_repr
      (VDict [("response_code", VInt 1)]) (md5_a +:+ "," +:+ md5_b)
      "md5_hash" (VInt 1) (Some two_digests) (Some file_params) new_instance
    = (Ok tt, st')
    /\ results st' = results new_instance ++ rows
    /\ Forall (fun r => Observable r = VStr (md5_a +:+ "," +:+ md5_b)
                        /\ SourceIndex r = VInt 1) rows.
Proof.
  destruct (_parse_vt_results no_decoder some_dumps some_repr
              (VDict [("response_code", VInt 1)]) (md5_a +:+ "," +:+ md5_b)
              "md5_hash" (VInt 1) (Some two_digests) (Some file_params)
              new_instance) as [[[]|e] st'] eqn:E.
  - destruct (whole_submission_attribution no_decoder some_dumps some_repr
                (VDict [("response_code", VInt 1)]) (md5_a +:+ "," +:+ md5_b)
                "md5_hash" (VInt 1) (Some two_digests) (Some file_params)
                new_instance st' [VDict [("response_code", VInt 1)]]
                eq_refl (or_introl eq_refl) E) as (rows & Hres & _ & Hall).
    exists st', rows. split; [reflexivity|]. split; [exact Hres|exact Hall].
  - vm_compute in E. discriminate E.
Defined.

(** X10 at a list whose second element is a number. *)
Lemma rows_before_a_bad_element_stay_witness :
  exists st1 rows,
    _parse_vt_results no_decoder some_dumps some_repr
      (VList [VDict [("resource", VStr md5_a)]; VInt 7])
      (md5_a +:+ "," +:+ md5_b) "md5_hash" (VInt 1) (Some two_digests)
      (Some file_params) new_instance
    = (Raise AttributeError, st1)
    /\ results st1 = results new_instance ++ rows
    /\ length rows = 1%nat.
Proof.
  destruct (parse_elements some_dumps 2 (md5_a +:+ "," +:+ md5_b) "md5_hash"
              (VInt 1) (Some two_digests)
              (submitted_literals (md5_a +:+ "," +:+ md5_b) (Some file_params))
              0 [VDict [("resource", VStr md5_a)]] new_instance)
    as [[[]|e] st1] eqn:E.
  - destruct (rows_before_a_bad_element_stay no_decoder some_dumps some_repr
                (VList [VDict [("resource", VStr md5_a)]; VInt 7])
                (md5_a +:+ "," +:+ md5_b) "md5_hash" (VInt 1)
                (Some two_digests) (Some file_params) new_instance
                [VDict [("resource", VStr md5_a)]] (VInt 7) [] st1
                AttributeError eq_refl E eq_refl)
      as (Hrun & rows & Hres & Hlen).
    exists st1, rows. split; [exact Hrun|]. split; [exact Hres|exact Hlen].
  - vm_compute in E. discriminate E.
Defined.



(** X13 at a domain report that carries a top-level positives and no
    detected_urls. *)
Lemma address_and_domain_cells_witness :
  exists row,
    _parse_single_result
      (VDict [("positives", VInt 99); ("response_code", VInt 1)]) "dns"
    = Ok row
    /\ Positives row = VNone /\ DetectedUrls row = VNone
    /\ ResponseCode row = VInt 1.
Proof.
  eexists. split; [reflexivity|].
  destruct (address_and_domain_cells
              [("positives", VInt 99); ("response_code", VInt 1)] "dns" _
              (or_intror eq_refl) eq_refl)
    as (Hcode & _ & _ & _ & _ & _ & _ & _ & _ & _ & _ & Hurls).
  destruct (Hurls eq_refl) as [Hd Hp].
  split; [exact Hp|]. split; [exact Hd|exact Hcode].
Defined.

(** X14 at the type name [sha256_hash], which the registry does not
    have. *)
Lemma lookup_ioc_rejections_witness :
  exists msg,
    lookup_ioc no_decoder some_dumps some_repr accept_as_is
      (always_answer (VDict []) 200) (Some md5_a) (Some "sha256_hash") "dict"
      new_instance
    = (Raise (LookupError msg), new_instance).
Proof.
  destruct (lookup_ioc_rejections no_decoder some_dumps some_repr accept_as_is
              (always_answer (VDict []) 200) (Some md5_a)
              (Some "sha256_hash") "dict" new_instance) as (_ & _ & Htype).
  apply (Htype md5_a "sha256_hash" eq_refl eq_refl).
  - by eexists.
  - simpl. intros H.
    repeat destruct H as [H|H]; first [discriminate H|destruct H].
Defined.

(** X15 at a URL whose lookup is answered with status 403 and an
    object. *)
Lemma lookup_ioc_one_request_witness :
  requests
    (lookup_ioc no_decoder some_dumps some_repr accept_as_is
       (always_answer (VDict [("response_code", VInt 1)]) 403)
       (Some "http://example.com/") (Some "url") "dict"
       instance_with_earlier_row).2
  = [("http://example.com/", url_params)].
Proof.
  exact (proj1 (lookup_ioc_one_request no_decoder some_dumps some_repr
                  accept_as_is
                  (always_answer (VDict [("response_code", VInt 1)]) 403)
                  "http://example.com/" "url" "dict"
                  instance_with_earlier_row "http://example.com/" url_params
                  eq_refl eq_refl)).
Defined.

(** X17 at a first call that names IPv4 addresses "ipaddress" and gives a
    mapping for a name that is no supported type. *)
Lemma type_map_is_rebuilt_witness :
  _ioc_custom_type_map
    (lookup_iocs From_2_2 no_decoder some_dumps some_repr accept_as_is
       (always_answer (VDict []) 200) sha256_frame "SourceIndex"
       [("ipv4", "ipaddress"); ("filehash", "hash")] fresh_session).2
  = [("ipv4", "ipaddress"); ("dns", "dns"); ("url", "url");
     ("md5_hash", "md5_hash"); ("sha1_hash", "sha1_hash");
     ("sh256_hash", "sh256_hash")].
Proof.
  refine (proj1 (type_map_is_rebuilt From_2_2 no_decoder some_dumps some_repr
                   accept_as_is (always_answer (VDict []) 200) sha256_frame
                   "SourceIndex" [("ipv4", "ipaddress"); ("filehash", "hash")]
                   fresh_session _ _)).
  - left. reflexivity.
  - apply (bool_decide_unpack _). vm_compute. exact I.
Defined.

(** X18 at a frame whose only row is tagged [sha256_hash]. *)
Lemma unmapped_rows_are_ignored_witness :
  (lookup_iocs From_2_2 no_decoder some_dumps some_repr accept_as_is
     (always_answer (VDict []) 200) sha256_frame "SourceIndex" []
     fresh_session).1 = Ok []
  /\ requests
       (engine
          (lookup_iocs From_2_2 no_decoder some_dumps some_repr accept_as_is
             (always_answer (VDict []) 200) sha256_frame "SourceIndex" []
             fresh_session).2) = [].
Proof.
  destruct (unmapped_rows_are_ignored From_2_2 no_decoder some_dumps some_repr
              accept_as_is (always_answer (VDict []) 200) sha256_frame
              "SourceIndex" [] fresh_session) as (Hout & _ & Hreq).
  - left. reflexivity.
  - constructor.
  - constructor; [|constructor].
    intros k Hk. simpl in Hk.
    repeat destruct Hk as [<-|Hk]; try reflexivity. destruct Hk.
  - split; [exact Hout|exact Hreq].
Defined.

(** X20 at a batch lookup on an instance of verbosity 0. *)
Lemma verbosity_zero_logs_nothing_witness :
  log
    (_lookup_ioc_type From_2_2 no_decoder some_dumps some_repr accept_as_is
       (always_answer quota_body 403) [input_row 0 md5_a] "md5_hash" None
       silent_instance).2 = [].
Proof.
  exact (proj1 (proj1 (verbosity_zero_logs_nothing From_2_2 no_decoder
                         some_dumps some_repr accept_as_is
                         (always_answer quota_body 403) silent_instance
                         eq_refl)
                  [input_row 0 md5_a] "md5_hash" None)).
Defined.

(** X21 at the file type. *)
Lemma every_descriptor_has_a_url_witness :
  _get_vt_api_url "file" = Ok "https://www.virustotal.com/vtapi/v2/file/report".
Proof.
  exact (proj1 (every_descriptor_has_a_url "md5_hash" file_params eq_refl)).
Defined.
